(** * Heavy-ion observables database: the typed observable model, its
      SQLite store and the query path

    A shallow embedding of [scripts/database.py],
    [scripts/query_and_plot.py] and [scripts/populate_db.py].  Each Python
    module is a Rocq module of the same name; the two library modules the
    scripts call ([json] and [sqlite3]) are modelled as far as the scripts
    use them. *)

From Stdlib Require Import ZArith String Ascii List PrimFloat.
From Stdlib Require Import DecimalString DecimalZ.
From stdpp Require Import base option list gmap strings.

Set Warnings "-register-all,-inexact-float".

Open Scope Z_scope.
Open Scope string_scope.

(** ** Python values, exceptions and the text of [str] / [repr] *)

Module Py.

(** The exceptions the two scripts can meet.  [JSONDecodeError] is a
    subclass of [ValueError]; [TypeError] is what subscripting [None]
    raises; [OperationalError] is the [sqlite3.OperationalError] of a
    statement on a table that the file does not have. *)
Inductive exception : Type :=
| ValueError (msg : string)
| NameError (msg : string)
| TypeError (msg : string)
| OperationalError (msg : string)
| JSONDecodeError.

(** Outcome of a call: a returned value or a raised exception. *)
Inductive result (A : Type) : Type :=
| Return (a : A)
| Raise (e : exception).
Arguments Return {A} a.
Arguments Raise {A} e.

Definition bind {A B} (r : result A) (k : A -> result B) : result B :=
  match r with
  | Return a => k a
  | Raise e => Raise e
  end.

(** [except ValueError] catches [ValueError] and its subclasses. *)
Definition isinstance_ValueError (e : exception) : bool :=
  match e with
  | ValueError _ | JSONDecodeError => true
  | NameError _ | TypeError _ | OperationalError _ => false
  end.

(** [str(e)] for the exceptions above. *)
Definition str_exception (e : exception) : string :=
  match e with
  | ValueError msg | NameError msg | TypeError msg | OperationalError msg => msg
  | JSONDecodeError => "Expecting value"
  end.

(** Values that are passed as keyword arguments. *)
Inductive value : Type :=
| Str (s : string)
| Int (z : Z)
| Float (f : float)
| List (items : list value).

(** A dict from strings to strings in insertion order, as the
    [reference] and [trigger_info] literals are. *)
Abbreviation dict := (list (string * string)).

Definition dquote : ascii := "034"%char.
Definition squote : ascii := "'"%char.
Definition backslash : ascii := "\"%char.

Fixpoint contains (c : ascii) (s : string) : bool :=
  match s with
  | EmptyString => false
  | String a rest => if Ascii.eqb a c then true else contains c rest
  end.

Definition hex_digit (n : N) : ascii :=
  if (n <? 10)%N then ascii_of_N (48 + n) else ascii_of_N (87 + n).

(** One character of [repr] of a [str].  The texts that the scripts
    write with [repr] are column names in ASCII; a byte from 128 up is
    copied, as [repr] copies a printable character. *)
Definition repr_char (quote c : ascii) : string :=
  let n := N_of_ascii c in
  if Ascii.eqb c quote || Ascii.eqb c backslash then String backslash (String c "")
  else if (n =? 9)%N then String backslash "t"
  else if (n =? 10)%N then String backslash "n"
  else if (n =? 13)%N then String backslash "r"
  else if (n <? 32)%N || (n =? 127)%N
       then String backslash (String "x" (String (hex_digit (n / 16)) (String (hex_digit (n mod 16)) "")))
  else String c "".

Fixpoint repr_chars (quote : ascii) (s : string) : string :=
  match s with
  | EmptyString => ""
  | String c rest => repr_char quote c ++ repr_chars quote rest
  end.

(** [repr(s)]: single quotes, unless the text has a single quote and no
    double quote. *)
Definition repr_str (s : string) : string :=
  let quote := if contains squote s && negb (contains dquote s) then dquote else squote in
  String quote (repr_chars quote s ++ String quote "").

Fixpoint join (sep : string) (parts : list string) : string :=
  match parts with
  | [] => ""
  | [p] => p
  | p :: rest => p ++ sep ++ join sep rest
  end.

(** [str(d)] of a dict of strings.  Which characters of a key or of a
    value [str] copies and which it writes as an escape is laid down in
    the Unicode character database; the text is kept as the dict it is
    the [str] of.  The scripts store it and hand it on, none looks into
    it. *)
Inductive dict_text : Type :=
| str_dict (d : dict).

(** [str(z)] of an int. *)
Definition str_int (z : Z) : string := NilZero.string_of_int (Z.to_int z).

End Py.

(** ** The [json] library on nested lists of numbers

    [ndarray.tolist()] gives a list, or a list of lists, of Python ints
    or floats.  [dumps] writes such a value with the default separators,
    an int with [int.__repr__] and a float with [float.__repr__];
    [loads] reads it back, skipping JSON white space around tokens. *)

Module json.

(** A decimal digit, and a digit other than zero. *)
Inductive digit : Type :=
| dig0 | dig1 | dig2 | dig3 | dig4 | dig5 | dig6 | dig7 | dig8 | dig9.

Inductive nonzero : Type :=
| nz1 | nz2 | nz3 | nz4 | nz5 | nz6 | nz7 | nz8 | nz9.

Definition digit_of_nonzero (d : nonzero) : digit :=
  match d with
  | nz1 => dig1 | nz2 => dig2 | nz3 => dig3 | nz4 => dig4 | nz5 => dig5
  | nz6 => dig6 | nz7 => dig7 | nz8 => dig8 | nz9 => dig9
  end.

Definition nonzero_of (d : digit) : option nonzero :=
  match d with
  | dig0 => None
  | dig1 => Some nz1 | dig2 => Some nz2 | dig3 => Some nz3 | dig4 => Some nz4
  | dig5 => Some nz5 | dig6 => Some nz6 | dig7 => Some nz7 | dig8 => Some nz8
  | dig9 => Some nz9
  end.

(** A Python float, named by what [repr] writes for it.  [repr] gives
    the shortest run of digits that [float] reads back to the same
    float, so a float other than zero, an infinity or a NaN is known by
    its sign, these digits [first], [more] (the first and the last of
    them are not zeros) and the place [point] of the decimal point: its
    value is [0.d1...dn * 10 ^ point].  Two floats are the same exactly
    when they have the same name.  The type has a name for every decimal
    number, so also for numbers between two floats; [0.1] is
    [Finite false nz1 None 0] and [1601.0] is
    [Finite false nz1 (Some ([dig6; dig0], nz1)) 4]. *)
Inductive pyfloat : Type :=
| Zero (negative : bool)
| Finite (negative : bool) (first : nonzero) (more : option (list digit * nonzero))
         (point : Z)
| Infinity (negative : bool)
| NaN.

Inductive data : Type :=
| JInt (z : Z)
| JFloat (x : pyfloat)
| JList (items : list data).

(** *** Writing *)

Definition char_of (d : digit) : ascii :=
  match d with
  | dig0 => "0" | dig1 => "1" | dig2 => "2" | dig3 => "3" | dig4 => "4"
  | dig5 => "5" | dig6 => "6" | dig7 => "7" | dig8 => "8" | dig9 => "9"
  end.

Fixpoint text (ds : list digit) : string :=
  match ds with
  | [] => ""
  | d :: rest => String (char_of d) (text rest)
  end.

Definition zeros (n : nat) : list digit := replicate n dig0.

Definition sign (negative : bool) : string := if negative then "-" else "".

Definition float_digits (first : nonzero) (more : option (list digit * nonzero))
    : list digit :=
  digit_of_nonzero first
  :: match more with
     | Some (middle, last) => (middle ++ [digit_of_nonzero last])%list
     | None => []
     end.

(** The digits of an exponent, two at least. *)
Definition exponent_digits (e : Z) : Decimal.uint :=
  let ds := N.to_uint (Z.abs_N e) in
  if (Decimal.nb_digits ds <? 2)%nat then Decimal.D0 ds else ds.

Definition exponent_text (e : Z) : string :=
  (if (e <? 0)%Z then "-" else "+") ++ NilEmpty.string_of_uint (exponent_digits e).

(** [float.__repr__]: the digits with a point among them for a value
    from [1e-4] up to, not including, [1e16], and one digit before the
    point with an exponent otherwise.  [dumps] writes the three values
    that are no numbers as JavaScript names them. *)
Definition float_text (x : pyfloat) : string :=
  match x with
  | NaN => "NaN"
  | Infinity negative => sign negative ++ "Infinity"
  | Zero negative => sign negative ++ "0.0"
  | Finite negative first more point =>
      let ds := float_digits first more in
      let n := Z.of_nat (length ds) in
      sign negative ++
      if (-4 <? point)%Z && (point <=? 16)%Z then
        if (point <=? 0)%Z then "0." ++ text (zeros (Z.to_nat (- point)) ++ ds)
        else if (n <=? point)%Z then text (ds ++ zeros (Z.to_nat (point - n))) ++ ".0"
        else text (take (Z.to_nat point) ds) ++ "." ++ text (drop (Z.to_nat point) ds)
      else
        text [digit_of_nonzero first]
        ++ match more with
           | Some _ => "." ++ text (tail ds)
           | None => ""
           end
        ++ "e" ++ exponent_text (point - 1)
  end.

Fixpoint dumps (v : data) : string :=
  match v with
  | JInt z => Py.str_int z
  | JFloat x => float_text x
  | JList items =>
      "[" ++ Py.join ", " (map dumps items) ++ "]"
  end.

(** *** Reading *)

Definition digit_of (c : ascii) : option (Decimal.uint -> Decimal.uint) :=
  if Ascii.eqb c "0" then Some Decimal.D0
  else if Ascii.eqb c "1" then Some Decimal.D1
  else if Ascii.eqb c "2" then Some Decimal.D2
  else if Ascii.eqb c "3" then Some Decimal.D3
  else if Ascii.eqb c "4" then Some Decimal.D4
  else if Ascii.eqb c "5" then Some Decimal.D5
  else if Ascii.eqb c "6" then Some Decimal.D6
  else if Ascii.eqb c "7" then Some Decimal.D7
  else if Ascii.eqb c "8" then Some Decimal.D8
  else if Ascii.eqb c "9" then Some Decimal.D9
  else None.

(** The longest run of digits at the head of the text. *)
Fixpoint read_digits (s : string) : Decimal.uint * string :=
  match s with
  | EmptyString => (Decimal.Nil, s)
  | String c rest =>
      match digit_of c with
      | Some d => let '(ds, rest') := read_digits rest in (d ds, rest')
      | None => (Decimal.Nil, s)
      end
  end.

(** One digit or more. *)
Definition read_digits1 (s : string) : option (Decimal.uint * string) :=
  match read_digits s with
  | (Decimal.Nil, _) => None
  | (ds, rest) => Some (ds, rest)
  end.

Fixpoint digits_of_uint (ds : Decimal.uint) : list digit :=
  match ds with
  | Decimal.Nil => []
  | Decimal.D0 r => dig0 :: digits_of_uint r
  | Decimal.D1 r => dig1 :: digits_of_uint r
  | Decimal.D2 r => dig2 :: digits_of_uint r
  | Decimal.D3 r => dig3 :: digits_of_uint r
  | Decimal.D4 r => dig4 :: digits_of_uint r
  | Decimal.D5 r => dig5 :: digits_of_uint r
  | Decimal.D6 r => dig6 :: digits_of_uint r
  | Decimal.D7 r => dig7 :: digits_of_uint r
  | Decimal.D8 r => dig8 :: digits_of_uint r
  | Decimal.D9 r => dig9 :: digits_of_uint r
  end.

(** The three groups of the scanner's pattern for a number: a minus
    sign or none with a zero or with digits of which the first is not a
    zero; a point with digits; [e] or [E] with a sign or none and
    digits.  The second and the third group may be missing. *)
Definition read_sign (s : string) : bool * string :=
  match s with
  | String c rest => if Ascii.eqb c "-" then (true, rest) else (false, s)
  | EmptyString => (false, s)
  end.

Definition read_integer (s : string) : option (Decimal.uint * string) :=
  match s with
  | String c rest =>
      if Ascii.eqb c "0" then Some (Decimal.D0 Decimal.Nil, rest) else read_digits1 s
  | EmptyString => None
  end.

Definition read_fraction (s : string) : option (Decimal.uint * string) :=
  match s with
  | String c rest => if Ascii.eqb c "." then read_digits1 rest else None
  | EmptyString => None
  end.

Definition read_exponent (s : string) : option (Z * string) :=
  match s with
  | String c rest =>
      if Ascii.eqb c "e" || Ascii.eqb c "E" then
        let '(negative, rest) :=
          match rest with
          | String c' rest' =>
              if Ascii.eqb c' "-" then (true, rest')
              else if Ascii.eqb c' "+" then (false, rest')
              else (false, rest)
          | EmptyString => (false, rest)
          end in
        '(ds, rest) ← read_digits1 rest;
        Some (if negative then - Z.of_uint ds else Z.of_uint ds, rest)
      else None
  | EmptyString => None
  end.

(** [float(text)] for the text of a JSON number with a fraction or an
    exponent, [int] [.frac] [e exponent]: zeros before the first and
    after the last digit that is not a zero do not count.  [float]
    gives the float nearest to the number written; for a text that
    [float.__repr__] wrote that is the float it was written from, and
    the number is taken as it is written. *)
Fixpoint count_zeros (ds : list digit) : nat :=
  match ds with
  | dig0 :: rest => S (count_zeros rest)
  | _ => O
  end.

Definition strip_zeros (ds : list digit) : list digit := drop (count_zeros ds) ds.

Fixpoint split_last (ds : list digit) : option (list digit * digit) :=
  match ds with
  | [] => None
  | d :: rest =>
      match split_last rest with
      | Some (middle, last) => Some (d :: middle, last)
      | None => Some ([], d)
      end
  end.

Definition mantissa (ds : list digit) : option (nonzero * option (list digit * nonzero)) :=
  match ds with
  | [] => None
  | d :: rest =>
      first ← nonzero_of d;
      match split_last rest with
      | Some (middle, l) => last ← nonzero_of l; Some (first, Some (middle, last))
      | None => Some (first, None)
      end
  end.

Definition float_of_decimal (negative : bool) (int frac : list digit) (exponent : Z)
    : pyfloat :=
  let ds := (int ++ frac)%list in
  match mantissa (reverse (strip_zeros (reverse (strip_zeros ds)))) with
  | Some (first, more) =>
      Finite negative first more
        (Z.of_nat (length int) + exponent - Z.of_nat (count_zeros ds))
  | None => Zero negative
  end.

(** What follows the integer part decides between an int and a float. *)
Definition read_tail (negative : bool) (int : Decimal.uint) (s : string)
    : option (data * string) :=
  let '(frac, s) :=
    match read_fraction s with
    | Some (ds, rest) => (Some ds, rest)
    | None => (None, s)
    end in
  let '(exponent, s) :=
    match read_exponent s with
    | Some (e, rest) => (Some e, rest)
    | None => (None, s)
    end in
  match frac, exponent with
  | None, None => Some (JInt (if negative then - Z.of_uint int else Z.of_uint int), s)
  | _, _ =>
      Some (JFloat (float_of_decimal negative (digits_of_uint int)
                      (digits_of_uint (default Decimal.Nil frac)) (default 0 exponent)),
            s)
  end.

Definition read_number (s : string) : option (data * string) :=
  let '(negative, s) := read_sign s in
  '(int, s) ← read_integer s;
  read_tail negative int s.

Fixpoint strip_prefix (prefix s : string) : option string :=
  match prefix with
  | EmptyString => Some s
  | String a prefix' =>
      match s with
      | String b s' => if Ascii.eqb a b then strip_prefix prefix' s' else None
      | EmptyString => None
      end
  end.

(** A number, or one of [NaN], [Infinity] and [-Infinity]. *)
Definition read_scalar (s : string) : option (data * string) :=
  match read_number s with
  | Some r => Some r
  | None =>
      match strip_prefix "NaN" s with
      | Some rest => Some (JFloat NaN, rest)
      | None =>
          match strip_prefix "Infinity" s with
          | Some rest => Some (JFloat (Infinity false), rest)
          | None =>
              rest ← strip_prefix "-Infinity" s; Some (JFloat (Infinity true), rest)
          end
      end
  end.

Definition is_space (c : ascii) : bool :=
  Ascii.eqb c " " || Ascii.eqb c "009" || Ascii.eqb c "010" || Ascii.eqb c "013".

Fixpoint skip_ws (s : string) : string :=
  match s with
  | String c rest => if is_space c then skip_ws rest else s
  | EmptyString => s
  end.

(** Recursive descent; every call consumes fuel, and the text length
    plus one is enough of it. *)
Fixpoint parse_value (fuel : nat) (s : string) : option (data * string) :=
  match fuel with
  | O => None
  | S fuel' =>
      match skip_ws s with
      | String c rest =>
          if Ascii.eqb c "[" then
            match skip_ws rest with
            | String c' rest' =>
                if Ascii.eqb c' "]" then Some (JList [], rest')
                else '(items, rest'') ← parse_items fuel' (String c' rest');
                     Some (JList items, rest'')
            | EmptyString => None
            end
          else read_scalar (String c rest)
      | EmptyString => None
      end
  end
with parse_items (fuel : nat) (s : string) : option (list data * string) :=
  match fuel with
  | O => None
  | S fuel' =>
      '(v, rest) ← parse_value fuel' s;
      match skip_ws rest with
      | String c rest' =>
          if Ascii.eqb c "," then
            '(vs, rest'') ← parse_items fuel' rest'; Some (v :: vs, rest'')
          else if Ascii.eqb c "]" then Some ([v], rest')
          else None
      | EmptyString => None
      end
  end.

(** [json.loads]: one value, then nothing but white space. *)
Definition loads (s : string) : Py.result data :=
  match parse_value (S (String.length s)) s with
  | Some (v, rest) =>
      match skip_ws rest with
      | EmptyString => Py.Return v
      | String _ _ => Py.Raise Py.JSONDecodeError
      end
  | None => Py.Raise Py.JSONDecodeError
  end.

End json.

(** ** The [sqlite3] store as the scripts use it *)

Module sqlite3.

(** A dimension table: rows [(id, name)] in rowid order.  The id column
    is [INTEGER PRIMARY KEY], an alias of the rowid. *)
Abbreviation table := (list (Z * string)).

(** A row of [experimental_results], with the columns of the
    [CREATE TABLE] statement. *)
Record result_row : Type := {
  result_id : Z;
  system_id : Z;
  collaboration_id : Z;
  observable_id : Z;
  centrality_bins : string;
  value : string;
  error : string;
  reference : Py.dict_text
}.

(** The store file once the four tables exist; every table is kept in
    rowid order, the order of a table scan. *)
Record db : Type := {
  systems : table;
  collaborations : table;
  observables : table;
  experimental_results : list result_row
}.

(** The four tables right after their creation. *)
Definition empty : db :=
  {| systems := []; collaborations := []; observables := []; experimental_results := [] |}.

(** The largest rowid that a table can hold. *)
Definition max_rowid : Z := 9223372036854775807.

(** The rowid given to a row inserted without one, as long as the
    largest in use is below [max_rowid]: one more than the largest in
    use, 1 in an empty table. *)
Definition next_rowid (ids : list Z) : Z :=
  match ids with
  | [] => 1
  | i :: rest => foldr Z.max i rest + 1
  end.

(** Puts a row at its place in rowid order. *)
Fixpoint place (r : Z * string) (t : table) : table :=
  match t with
  | [] => [r]
  | r' :: t' => if (fst r <? fst r')%Z then r :: t else r' :: place r t'
  end.

(** [INSERT OR IGNORE INTO t (id, name) VALUES (id, name)]: nothing
    happens when the primary key is taken. *)
Definition insert_or_ignore (id : Z) (name : string) (t : table) : table :=
  if existsb (fun r => (fst r =? id)%Z) t then t else place (id, name) t.

(** [INSERT INTO t (name) VALUES (name)]: the new row has the largest
    rowid and so comes last. *)
Definition insert_name (name : string) (t : table) : table :=
  (t ++ [(next_rowid (map fst t), name)])%list.

(** [SELECT id FROM t WHERE name = ?]. *)
Definition select_id (name : string) (t : table) : list Z :=
  map fst (filter (fun r => snd r = name) t).

(** [INSERT INTO experimental_results (system_id, ..., reference)
    VALUES (?, ?, ?, ?, ?, ?, ?)]: the row gets the next rowid as its
    [result_id]. *)
Definition insert_result (sys col obs : Z) (bins val err : string) (ref : Py.dict_text)
    (rows : list result_row) : list result_row :=
  (rows ++ [{| result_id := next_rowid (map result_id rows);
               system_id := sys; collaboration_id := col; observable_id := obs;
               centrality_bins := bins; value := val; error := err;
               reference := ref |}])%list.

Definition with_systems (t : table) (d : db) : db :=
  {| systems := t; collaborations := collaborations d;
     observables := observables d; experimental_results := experimental_results d |}.
Definition with_collaborations (t : table) (d : db) : db :=
  {| systems := systems d; collaborations := t;
     observables := observables d; experimental_results := experimental_results d |}.
Definition with_observables (t : table) (d : db) : db :=
  {| systems := systems d; collaborations := collaborations d;
     observables := t; experimental_results := experimental_results d |}.
Definition with_experimental_results (rows : list result_row) (d : db) : db :=
  {| systems := systems d; collaborations := collaborations d;
     observables := observables d; experimental_results := rows |}.

(** [cursor.fetchone()]: the first row of the result, or [None]. *)
Definition fetchone {A : Type} (rows : list A) : option A := head rows.

End sqlite3.

(** ** [scripts/database.py] *)

Module database.

Import Py.

(** The column comments of the [database_schema] dictionary for
    [experimental_results], in the order of the dictionary. *)
Definition database_schema_experimental_results : list string :=
  ["result_id"; "system_id"; "collaboration_id"; "observable_id";
   "centrality_bins"; "value"; "error"; "reference"; "trigger_info"].

(** The columns of [CREATE TABLE IF NOT EXISTS experimental_results]. *)
Definition experimental_results_columns : list string :=
  ["result_id"; "system_id"; "collaboration_id"; "observable_id";
   "centrality_bins"; "value"; "error"; "reference"].

(** A numpy array of numbers, identified with the nested list that
    [tolist] gives and [np.array] takes. *)
Definition ndarray : Type := json.data.
Definition tolist (a : ndarray) : json.data := a.

(** [len(a)] *)
Definition len (a : ndarray) : Z :=
  match a with
  | json.JInt _ | json.JFloat _ => 0
  | json.JList items => Z.of_nat (length items)
  end.

Definition ALICE_cent_bins : ndarray :=
  json.JList (map (fun b => json.JList [json.JInt (fst b); json.JInt (snd b)])
    [(0,5); (5,10); (10,20); (20,30); (30,40); (40,50); (50,60); (60,70); (70,80)]).
Definition STAR_cent_bins : ndarray := ALICE_cent_bins.

(** The base class and its subclasses. *)
Inductive class : Type :=
| Observable | Multiplicity | MeanPT | IntegratedVn2 | IntegratedVn4
| PtDifferentialVn2 | PtDifferentialVn4 | TransverseEnergy | PTFluc.

Definition __name__ (c : class) : string :=
  match c with
  | Observable => "Observable"
  | Multiplicity => "Multiplicity"
  | MeanPT => "MeanPT"
  | IntegratedVn2 => "IntegratedVn2"
  | IntegratedVn4 => "IntegratedVn4"
  | PtDifferentialVn2 => "PtDifferentialVn2"
  | PtDifferentialVn4 => "PtDifferentialVn4"
  | TransverseEnergy => "TransverseEnergy"
  | PTFluc => "PTFluc"
  end.

(** The class attribute [required_params]. *)
Definition required_params (c : class) : list string :=
  match c with
  | Observable => []
  | Multiplicity | MeanPT | TransverseEnergy | PTFluc =>
      ["particle_type"; "rapidity_range"; "pT_range"]
  | IntegratedVn2 | IntegratedVn4 =>
      ["harmonic_n"; "rapidity_range"; "pT_range"]
  | PtDifferentialVn2 | PtDifferentialVn4 =>
      ["harmonic_n"; "rapidity_range"; "pT_bins"]
  end.

Definition get_required_params (cls : class) : list string := required_params cls.

(** An instance: its class, the nine attributes assigned from the
    positional arguments, of the types that the calls in the script
    pass, and the attributes added by [setattr]. *)
Record instance : Type := {
  __class__ : class;
  name : string;
  short_name : string;
  collision_system : string;
  collaboration : string;
  reference : dict;
  centrality_bins : ndarray;
  values : ndarray;
  errors : ndarray;
  trigger_info : dict;
  params : gmap string value
}.

Definition setattr (self : instance) (param : string) (v : value) : instance :=
  {| __class__ := __class__ self; name := name self; short_name := short_name self;
     collision_system := collision_system self; collaboration := collaboration self;
     reference := reference self; centrality_bins := centrality_bins self;
     values := values self; errors := errors self; trigger_info := trigger_info self;
     params := <[param := v]> (params self) |}.

(** The loop of [__init__] over [required_params]. *)
Fixpoint set_required (todo : list string) (kwargs : gmap string value)
    (self : instance) : result instance :=
  match todo with
  | [] => Return self
  | param :: todo' =>
      match kwargs !! param with
      | Some v => set_required todo' kwargs (setattr self param v)
      | None =>
          Raise (ValueError ("Missing required parameter: " ++ param ++ " for "
                               ++ __name__ (__class__ self)))
      end
  end.

(** [cls(name, short_name, ..., trigger_info, **kwargs)] *)
Definition __init__ (cls : class) (name short_name collision_system collaboration : string)
    (reference : dict) (centrality_bins values errors : ndarray) (trigger_info : dict)
    (kwargs : gmap string value) : result instance :=
  set_required (required_params cls) kwargs
    {| __class__ := cls; name := name; short_name := short_name;
       collision_system := collision_system; collaboration := collaboration;
       reference := reference; centrality_bins := centrality_bins;
       values := values; errors := errors; trigger_info := trigger_info;
       params := ∅ |}.

(** *** Usage examples *)

Definition alice_ch_mult : result instance :=
  __init__ Multiplicity
    "Charged-particle multiplicity" "dNch_deta" "Pb-Pb-2760" "ALICE"
    [("arXiv", "arxiv:1012.1657");
     ("doi", "10.1103/PhysRevLett.106.032301");
     ("title", "Centrality dependence of the charged-particle multiplicity density at mid-rapidity in Pb-Pb collisions at $\sqrt{s_{NN}}=2.76$ TeV")]
    ALICE_cent_bins
    (json.JList (map json.JInt [1601; 1294; 966; 649; 426; 261; 149; 76; 35]))
    (json.JList (map json.JInt [60; 49; 37; 23; 15; 9; 6; 4; 2]))
    [("Trigger", "VZERO and SPD detectors"); ("Centrality Selection", "VOM amplitude")]
    (<["particle_type" := Str "charged"]>
       (<["rapidity_range" := List [Float (-0.5); Float 0.5]]>
          (<["pT_range" := List [Float 0.2; Float 5.0]]> ∅))).

(** *** Populating the store *)

(** The nested function of [populate_database]; [cursor] is the store
    the enclosing function has prepared. *)
Definition insert_integrated_observable_data (cursor : sqlite3.db) (obs : instance)
    : result sqlite3.db :=
  let cursor :=
    sqlite3.with_observables
      (sqlite3.insert_name (short_name obs) (sqlite3.observables cursor)) cursor in
  match sqlite3.fetchone (sqlite3.select_id (short_name obs) (sqlite3.observables cursor)) with
  | None => Raise (TypeError "'NoneType' object is not subscriptable")
  | Some observable_id =>
      Return
        (sqlite3.with_experimental_results
           (sqlite3.insert_result
              1 (* Using the default system_id *)
              1 (* Using the default collaboration_id *)
              observable_id
              (json.dumps (tolist (centrality_bins obs)))
              (json.dumps (tolist (values obs)))
              (json.dumps (tolist (errors obs)))
              (str_dict (reference obs))
              (sqlite3.experimental_results cursor))
           cursor)
  end.

(** [populate_database()]: [file] is the content of
    [experimental_data.db] ([None] when the tables are not there yet) and
    [dNch_deta] the global the function reads.  The result is the
    committed store. *)
Definition populate_database (file : option sqlite3.db) (dNch_deta : instance)
    : result sqlite3.db :=
  (* CREATE TABLE IF NOT EXISTS, four times *)
  let cursor := default sqlite3.empty file in
  let cursor :=
    sqlite3.with_systems
      (sqlite3.insert_or_ignore 1 "Pb-Pb-2760" (sqlite3.systems cursor)) cursor in
  let cursor :=
    sqlite3.with_collaborations
      (sqlite3.insert_or_ignore 1 "ALICE" (sqlite3.collaborations cursor)) cursor in
  insert_integrated_observable_data cursor dNch_deta.

End database.

(** ** [scripts/query_and_plot.py] *)

Module query_and_plot.

Import Py.

(** The names bound in the module when [query_observables] runs from the
    [__main__] block: the three imports ([sqlite3], [matplotlib.pyplot as
    plt], [numpy as np]), the functions defined with [def], and the
    variables assigned before the call. *)
Definition globals : list string :=
  ["sqlite3"; "plt"; "np";
   "connect_to_database"; "query_observables";
   "plot_integrated_observable"; "plot_differential_observable";
   "conn"; "cursor"; "observable_name"].

(** Evaluating a global name that no import, [def] or assignment has
    bound raises [NameError]. *)
Definition load_global (x : string) : result unit :=
  if bool_decide (x ∈ globals) then Return tt
  else Raise (NameError ("name '" ++ x ++ "' is not defined")).

(** The four selected columns of one joined row. *)
Abbreviation row := (string * string * string * dict_text)%type.

(** [SELECT centrality_bins, value, error, reference
     FROM experimental_results
     JOIN observables ON experimental_results.observable_id = observables.observable_id
     WHERE observables.observable_name = ?]
    on a file that has the two tables, as a nested loop: the fact rows
    in rowid order, each with the [observables] row of its
    [observable_id]. *)
Definition execute (cursor : sqlite3.db) (observable_name : string) : list row :=
  flat_map
    (fun r =>
       map (fun _ => (sqlite3.centrality_bins r, sqlite3.value r,
                      sqlite3.error r, sqlite3.reference r))
           (filter (fun o => fst o = sqlite3.observable_id r ∧ snd o = observable_name)
                   (sqlite3.observables cursor)))
    (sqlite3.experimental_results cursor).

Definition np_array (v : json.data) : database.ndarray := v.

(** [query_observables(cursor, observable_name)]; [cursor] is on the
    content of the file, [None] for a file without the tables, as
    [sqlite3.connect] creates it.  There the statement raises. *)
Definition query_observables (cursor : option sqlite3.db) (observable_name : string)
    : result (database.ndarray * database.ndarray * database.ndarray * dict_text) :=
  match cursor with
  | None => Raise (OperationalError "no such table: experimental_results")
  | Some tables =>
      match sqlite3.fetchone (execute tables observable_name) with
      | Some (r0, r1, r2, r3) =>
          bind (load_global "np") (fun _ =>
          bind (load_global "json") (fun _ =>
          bind (json.loads r0) (fun centrality_bins =>
          bind (load_global "np") (fun _ =>
          bind (load_global "json") (fun _ =>
          bind (json.loads r1) (fun values =>
          bind (load_global "np") (fun _ =>
          bind (load_global "json") (fun _ =>
          bind (json.loads r2) (fun errors =>
          Return (np_array centrality_bins, np_array values, np_array errors, r3))))))))))
      | None =>
          Raise (ValueError ("No data found for observable: " ++ observable_name))
      end
  end.

(** What a run shows: lines written by [print], figures shown, and the
    closing of the connection. *)
Inductive event : Type :=
| Print (line : string)
| Show (title : string)
| Close.

Definition plot_integrated_observable (observable_name : string) : list event :=
  [Show (observable_name ++ " vs Centrality")].

Definition plot_differential_observable (observable_name : string) : list event :=
  [Show (observable_name ++ " vs pT")].

(** The [try] statement of the [__main__] block with [observable_name]
    as the name queried: the events it shows, and an exception if one
    leaves it. *)
Definition try_except (cursor : option sqlite3.db) (observable_name : string)
    : list event * result unit :=
  match query_observables cursor observable_name with
  | Return _ =>
      ((plot_integrated_observable observable_name
         ++ plot_differential_observable "v2_pion_pT")%list,
       Return tt)
  | Raise e =>
      if isinstance_ValueError e
      then ([Print (str_exception e)], Return tt)
      else ([], Raise e)
  end.

(** The [__main__] block on the content of [experimental_data.db],
    [None] when the file has no tables: the events of the run, and
    whether it ended normally or with an exception that nothing caught. *)
Definition main (file : option sqlite3.db) : list event * result unit :=
  match try_except file "mean_pT_pion" with
  | (events, Return _) => ((events ++ [Close])%list, Return tt)
  | (events, Raise e) => (events, Raise e)
  end.

End query_and_plot.

(** ** [scripts/populate_db.py] *)

Module populate_db.

(** The exceptions that the functions of this script can meet. *)
Inductive exception : Type :=
| ValueError (msg : string)
| TypeError (msg : string)
| IndexError (msg : string)
| IntegrityError (msg : string)
| OperationalError (msg : string).

Inductive result (A : Type) : Type :=
| Return (a : A)
| Raise (e : exception).
Arguments Return {A} a.
Arguments Raise {A} e.

(** *** The methods of [str] that the script calls *)

(** [s.endswith(suffix)] *)
Fixpoint endswith (suffix s : string) : bool :=
  if String.eqb s suffix then true
  else match s with
       | EmptyString => false
       | String _ rest => endswith suffix rest
       end.

(** [old in s] *)
Fixpoint occurs (old s : string) : bool :=
  if String.prefix old s then true
  else match s with
       | EmptyString => false
       | String _ rest => occurs old rest
       end.

(** The scan of [s.replace(old, new)] for a non-empty [old]: from the
    left, every occurrence that does not overlap an earlier one is
    replaced; [skip] counts the characters of the current occurrence
    still to pass. *)
Fixpoint replace_from (old new : string) (skip : nat) (s : string) : string :=
  match s with
  | EmptyString => EmptyString
  | String c rest =>
      match skip with
      | S k => replace_from old new k rest
      | O =>
          if String.prefix old s
          then new ++ replace_from old new (String.length old - 1) rest
          else String c (replace_from old new 0 rest)
      end
  end.

(** With an empty [old], [new] goes before every character and at the
    end. *)
Fixpoint interleave (new s : string) : string :=
  match s with
  | EmptyString => new
  | String c rest => new ++ String c (interleave new rest)
  end.

(** [s.replace(old, new)] *)
Definition replace (old new s : string) : string :=
  match old with
  | EmptyString => interleave new s
  | String _ _ => replace_from old new 0 s
  end.

(** The test and the assignment of the loop over the data folder: the
    observable name of a file that the loop takes, [None] for a file that
    it skips. *)
Definition observable_name_of (filename : string) : option string :=
  if endswith ".dat" filename then Some (replace ".dat" "" filename) else None.

(** *** The table [experimental_data] *)

Record data_row : Type := {
  id : Z;
  system : string;
  collaboration : string;
  observable : string;
  centrality_low : float;
  centrality_high : float;
  centrality_mid : float;
  value : float;
  error : float;
  reference : string
}.

(** The rows in rowid order, and the entry of [sqlite_sequence] that
    [AUTOINCREMENT] keeps for the table. *)
Record table : Type := {
  seq : Z;
  rows : list data_row
}.

(** The id that [AUTOINCREMENT] asks for: above the largest in the
    table and above the largest ever given. *)
Definition new_id (t : table) : Z :=
  Z.max (sqlite3.next_rowid (map id (rows t))) (seq t + 1).

(** A NaN is bound as [NULL]; the five [REAL] columns are [NOT NULL]. *)
Definition not_null_failure (low high mid val err : float) : option string :=
  if PrimFloat.is_nan low then Some "centrality_low"
  else if PrimFloat.is_nan high then Some "centrality_high"
  else if PrimFloat.is_nan mid then Some "centrality_mid"
  else if PrimFloat.is_nan val then Some "value"
  else if PrimFloat.is_nan err then Some "error"
  else None.

(** [INSERT INTO experimental_data (system, ..., reference)
     VALUES (?, ?, ?, ?, ?, ?, ?, ?, ?)]; with [AUTOINCREMENT] there is
    no id left once the largest rowid has been given. *)
Definition insert (system collaboration observable : string)
    (low high mid val err : float) (reference : string) (t : table) : result table :=
  match not_null_failure low high mid val err with
  | Some column =>
      Raise (IntegrityError ("NOT NULL constraint failed: experimental_data." ++ column))
  | None =>
      if (sqlite3.max_rowid <? new_id t)%Z
      then Raise (OperationalError "database or disk is full")
      else
        Return {| seq := new_id t;
                  rows := (rows t ++
                           [{| id := new_id t; system := system;
                               collaboration := collaboration; observable := observable;
                               centrality_low := low; centrality_high := high;
                               centrality_mid := mid; value := val; error := err;
                               reference := reference |}])%list |}
  end.

(** The connection of the script: what is committed, and the table as
    the open transaction sees it. *)
Record connection : Type := {
  committed : table;
  working : table
}.

(** SQLite ends and undoes the open transaction when a statement fails
    for want of room; after another failure the transaction stays open
    with what the earlier statements did. *)
Definition rolls_back (e : exception) : bool :=
  match e with
  | OperationalError _ => true
  | _ => false
  end.

(** What [np.loadtxt] returns: a two-dimensional array for several rows
    of several columns, a one-dimensional one for a single row, a single
    column or no data, a zero-dimensional one for a single number. *)
Inductive ndarray : Type :=
| Array0D (x : float)
| Array1D (xs : list float)
| Array2D (rows : list (list float)).

(** The loop of [insert_data] over the rows of a two-dimensional array:
    the table as the transaction sees it when the loop ends or stops. *)
Fixpoint insert_rows (system collaboration observable reference : string)
    (data : list (list float)) (t : table) : table * result unit :=
  match data with
  | [] => (t, Return tt)
  | row :: data' =>
      match take 5 row with
      | [cent_low; cent_high; cent_mid; val; err] =>
          match insert system collaboration observable
                  cent_low cent_high cent_mid val err reference t with
          | Return t' => insert_rows system collaboration observable reference data' t'
          | Raise e => (t, Raise e)
          end
      | short =>
          (t, Raise (ValueError ("not enough values to unpack (expected 5, got "
                                   ++ Py.str_int (Z.of_nat (length short)) ++ ")")))
      end
  end.

(** [insert_data(system, collaboration, observable, data, reference)] on
    the connection of the script. *)
Definition insert_data (conn : connection) (system collaboration observable : string)
    (data : ndarray) (reference : string) : connection * result unit :=
  match data with
  | Array0D _ => (conn, Raise (TypeError "iteration over a 0-d array"))
  | Array1D [] => ({| committed := working conn; working := working conn |}, Return tt)
  | Array1D (_ :: _) => (conn, Raise (IndexError "invalid index to scalar variable."))
  | Array2D data =>
      match insert_rows system collaboration observable reference data (working conn) with
      | (t, Return _) => ({| committed := t; working := t |}, Return tt)
      | (t, Raise e) =>
          ({| committed := committed conn;
              working := if rolls_back e then committed conn else t |}, Raise e)
      end
  end.

(** *** The functions for CSV files *)

(** A parsed CSV file: the column names, and the rows with their cells
    in the order of the columns. *)
Record DataFrame : Type := {
  columns : list string;
  index : list (list float)
}.

Definition list_repr (l : list string) : string :=
  "[" ++ Py.join ", " (map Py.repr_str l) ++ "]".

(** [test_check_columns(data, expected_columns)]: the line printed. *)
Definition test_check_columns (data : DataFrame) (expected_columns : list string) : string :=
  let missing_columns :=
    filter (fun col => col ∉ columns data) expected_columns in
  match missing_columns with
  | [] => "All expected columns are present!"
  | _ :: _ => "Missing columns: " ++ list_repr missing_columns
  end.

Definition expected_columns : list string := ["cent_low"; "cent_high"; "val"; "err"].

(** The loop of [populate_database_from_csv] over [expected_columns]. *)
Fixpoint check_columns (expected : list string) (data : DataFrame) : result unit :=
  match expected with
  | [] => Return tt
  | col :: expected' =>
      if bool_decide (col ∈ columns data) then check_columns expected' data
      else Raise (ValueError ("Expected column '" ++ col ++ "' not found in CSV file."))
  end.

(** [row[col]] for a row of [iterrows]; a cell that the row lacks reads
    as NaN. *)
Fixpoint cell (names : list string) (row : list float) (col : string) : float :=
  match names, row with
  | name :: names', x :: row' => if String.eqb name col then x else cell names' row' col
  | _, _ => PrimFloat.nan
  end.

(** [populate_database_from_csv(file_path, system, collaboration,
    observable, reference)] with [data] what [pd.read_csv(file_path)]
    gave for a file whose cells are numbers, on the file as the script
    has made it, whose one table is [experimental_data]: the table after
    the call, the lines printed and the outcome.  The statement of the
    loop inserts into [experimental_results], a table that this file
    does not have. *)
Definition populate_database_from_csv (file : table) (data : DataFrame)
    (file_path system collaboration observable reference : string)
    : table * list string * result unit :=
  match check_columns expected_columns data with
  | Raise e => (file, [], Raise e)
  | Return _ =>
      match index data with
      | [] => (file, ["Data from " ++ file_path ++ " inserted successfully."], Return tt)
      | row :: _ =>
          let cent_low := cell (columns data) row "cent_low" in
          let cent_high := cell (columns data) row "cent_high" in
          let cent_mid := PrimFloat.div (PrimFloat.add cent_low cent_high) 2 in
          let value := cell (columns data) row "val" in
          let error := cell (columns data) row "err" in
          (file, [], Raise (OperationalError "no such table: experimental_results"))
      end
  end.

End populate_db.

Import Py.

(** * Notions used in the statements *)

(** A bound on the calls that reading [dumps v] back takes. *)
Fixpoint size (v : json.data) : nat :=
  match v with
  | json.JInt _ | json.JFloat _ => 1
  | json.JList items => S (list_sum (map (fun x => S (size x)) items))
  end.

(** The text after a run of digits must not go on with a digit. *)
Definition no_digit_ahead (s : string) : Prop :=
  match s with
  | EmptyString => True
  | String c _ => json.digit_of c = None
  end.

(** The text after a number must not go on with a digit, a point or an
    exponent. *)
Definition number_ends (s : string) : Prop :=
  match s with
  | EmptyString => True
  | String c _ =>
      json.digit_of c = None /\ Ascii.eqb c "." = false
      /\ Ascii.eqb c "e" = false /\ Ascii.eqb c "E" = false
  end.

(** The digits as the reader of digits gives them. *)
Definition cons_of (d : json.digit) : Decimal.uint -> Decimal.uint :=
  match d with
  | json.dig0 => Decimal.D0 | json.dig1 => Decimal.D1 | json.dig2 => Decimal.D2
  | json.dig3 => Decimal.D3 | json.dig4 => Decimal.D4 | json.dig5 => Decimal.D5
  | json.dig6 => Decimal.D6 | json.dig7 => Decimal.D7 | json.dig8 => Decimal.D8
  | json.dig9 => Decimal.D9
  end.

Fixpoint uint_of_digits (ds : list json.digit) : Decimal.uint :=
  match ds with
  | [] => Decimal.Nil
  | d :: rest => cons_of d (uint_of_digits rest)
  end.

(** The first name of [required], in its order, that [kwargs] lacks. *)
Definition first_missing (required : list string) (kwargs : gmap string Py.value)
    : option string :=
  find (fun param => bool_decide (kwargs !! param = None)) required.

(** The script run once per observable of a list, on the same file. *)
Fixpoint populate_all (file : option sqlite3.db) (obs : list database.instance)
    : result (option sqlite3.db) :=
  match obs with
  | [] => Return file
  | o :: rest => bind (database.populate_database file o) (fun d => populate_all (Some d) rest)
  end.

(** The columns that [query_observables] selects from a fact row. *)
Definition selected (r : sqlite3.result_row) : query_and_plot.row :=
  (sqlite3.centrality_bins r, sqlite3.value r, sqlite3.error r, sqlite3.reference r).

(** A fact row is in the join for [name] when the [observables] row of
    its [observable_id] carries that name. *)
Definition joins (d : sqlite3.db) (name : string) (r : sqlite3.result_row) : Prop :=
  exists o, o ∈ sqlite3.observables d /\ fst o = sqlite3.observable_id r /\ snd o = name.

(** Every fact row points to a row of [observables]. *)
Definition references_resolve (d : sqlite3.db) : Prop :=
  forall r, r ∈ sqlite3.experimental_results d ->
            sqlite3.observable_id r ∈ map fst (sqlite3.observables d).

(** The store that [populate_database] hands to its nested function: the
    tables exist and the two default rows are there. *)
Definition prepared (file : option sqlite3.db) : sqlite3.db :=
  let cursor := default sqlite3.empty file in
  let cursor :=
    sqlite3.with_systems
      (sqlite3.insert_or_ignore 1 "Pb-Pb-2760" (sqlite3.systems cursor)) cursor in
  sqlite3.with_collaborations
    (sqlite3.insert_or_ignore 1 "ALICE" (sqlite3.collaborations cursor)) cursor.

(** The id that the [SELECT] after the [INSERT] finds for [name]: that of
    the first row already carrying the name, else that of the new row. *)
Definition resolved_id (name : string) (t : sqlite3.table) : Z :=
  match sqlite3.select_id name t with
  | i :: _ => i
  | [] => sqlite3.next_rowid (map fst t)
  end.

(** The fact row that a save of [obs] appends to [d]. *)
Definition fact_row (d : sqlite3.db) (obs : database.instance) : sqlite3.result_row :=
  {| sqlite3.result_id := sqlite3.next_rowid (map sqlite3.result_id (sqlite3.experimental_results d));
     sqlite3.system_id := 1;
     sqlite3.collaboration_id := 1;
     sqlite3.observable_id := resolved_id (database.short_name obs) (sqlite3.observables d);
     sqlite3.centrality_bins := json.dumps (database.centrality_bins obs);
     sqlite3.value := json.dumps (database.values obs);
     sqlite3.error := json.dumps (database.errors obs);
     sqlite3.reference := str_dict (database.reference obs) |}.

(** The store after the script has run once for each entity of a list
    on a new file. *)
Definition store_after (obs : list database.instance) : sqlite3.db :=
  match populate_all None obs with
  | Return (Some d) => d
  | _ => sqlite3.empty
  end.

(** The four texts that a save writes for an entity, as the query
    selects them. *)
Definition encoded (obs : database.instance) : query_and_plot.row :=
  (json.dumps (database.centrality_bins obs), json.dumps (database.values obs),
   json.dumps (database.errors obs), str_dict (database.reference obs)).

(** A row of a data file that [insert_data] can store: at least five
    numbers, none of the first five a NaN. *)
Definition storable (row : list float) : bool :=
  match take 5 row with
  | [low; high; mid; val; err] =>
      match populate_db.not_null_failure low high mid val err with
      | None => true
      | Some _ => false
      end
  | _ => false
  end.

(** The table has ids left for [n] more rows. *)
Definition has_room (t : populate_db.table) (n : nat) : Prop :=
  n = O \/ populate_db.new_id t + Z.of_nat n - 1 <= sqlite3.max_rowid.

(** New rows get the ids that follow the largest of [ids] as long as
    [n] more of them are within the range of rowids. *)
Definition room_for (n : Z) (ids : list Z) : Prop :=
  forall i, i ∈ ids -> i + n <= sqlite3.max_rowid.

(** The table row made of the first five numbers of a row of a data
    file. *)
Definition stored (i : Z) (system collaboration observable reference : string)
    (row : list float) : populate_db.data_row :=
  {| populate_db.id := i; populate_db.system := system;
     populate_db.collaboration := collaboration; populate_db.observable := observable;
     populate_db.centrality_low := nth 0 row PrimFloat.nan;
     populate_db.centrality_high := nth 1 row PrimFloat.nan;
     populate_db.centrality_mid := nth 2 row PrimFloat.nan;
     populate_db.value := nth 3 row PrimFloat.nan;
     populate_db.error := nth 4 row PrimFloat.nan;
     populate_db.reference := reference |}.

(** The table rows of the rows of a data file, with ids counted up from
    [first]. *)
Fixpoint stored_rows (first : Z) (system collaboration observable reference : string)
    (data : list (list float)) : list populate_db.data_row :=
  match data with
  | [] => []
  | row :: data' =>
      stored first system collaboration observable reference row
      :: stored_rows (first + 1) system collaboration observable reference data'
  end.

(** * Example entities *)

(** Keyword arguments used in the examples below. *)
Definition flow_kwargs_without_harmonic_n : gmap string value :=
  <["rapidity_range" := List [Float (-0.8); Float 0.8]]>
    (<["pT_range" := List [Float 0.2; Float 5.0]]> ∅).

Definition multiplicity_kwargs : gmap string value :=
  <["particle_type" := Str "charged"]>
    (<["rapidity_range" := List [Float (-0.5); Float 0.5]]>
       (<["pT_range" := List [Float 0.2; Float 5.0]]> ∅)).

Definition multiplicity_kwargs_and_harmonic_n : gmap string value :=
  <["harmonic_n" := Int 2]> multiplicity_kwargs.

(** A constructor call whose three series have lengths 3, 2 and 1. *)
Definition three_bins : database.ndarray :=
  json.JList [json.JList [json.JInt 0; json.JInt 5];
              json.JList [json.JInt 5; json.JInt 10];
              json.JList [json.JInt 10; json.JInt 20]].
Definition two_values : database.ndarray := json.JList [json.JInt 1601; json.JInt 1294].
Definition one_error : database.ndarray := json.JList [json.JInt 60].

(** The entity that [alice_ch_mult] constructs. *)
Definition alice_entity : database.instance :=
  {| database.__class__ := database.Multiplicity;
     database.name := "Charged-particle multiplicity";
     database.short_name := "dNch_deta";
     database.collision_system := "Pb-Pb-2760";
     database.collaboration := "ALICE";
     database.reference :=
       [("arXiv", "arxiv:1012.1657");
        ("doi", "10.1103/PhysRevLett.106.032301");
        ("title", "Centrality dependence of the charged-particle multiplicity density at mid-rapidity in Pb-Pb collisions at $\sqrt{s_{NN}}=2.76$ TeV")];
     database.centrality_bins := database.ALICE_cent_bins;
     database.values :=
       json.JList (map json.JInt [1601; 1294; 966; 649; 426; 261; 149; 76; 35]);
     database.errors := json.JList (map json.JInt [60; 49; 37; 23; 15; 9; 6; 4; 2]);
     database.trigger_info :=
       [("Trigger", "VZERO and SPD detectors"); ("Centrality Selection", "VOM amplitude")];
     database.params := multiplicity_kwargs |}.

(** The same measurement described with another particle type and
    another trigger. *)
Definition alice_entity_pions : database.instance :=
  {| database.__class__ := database.Multiplicity;
     database.name := database.name alice_entity;
     database.short_name := database.short_name alice_entity;
     database.collision_system := database.collision_system alice_entity;
     database.collaboration := database.collaboration alice_entity;
     database.reference := database.reference alice_entity;
     database.centrality_bins := database.centrality_bins alice_entity;
     database.values := database.values alice_entity;
     database.errors := database.errors alice_entity;
     database.trigger_info := [("Trigger", "TPC and TOF detectors")];
     database.params := <["particle_type" := Str "pion"]> multiplicity_kwargs |}.

(** An entity of the STAR collaboration for Au-Au collisions, as
    [star_pion_mult], with numbers in the place of its placeholder
    arrays. *)
Definition star_entity : database.instance :=
  {| database.__class__ := database.Multiplicity;
     database.name := "Identified pion multiplicity";
     database.short_name := "dNch_deta_pion";
     database.collision_system := "Au-Au-200";
     database.collaboration := "STAR";
     database.reference :=
       [("arXiv", "arXiv:0808.2041"); ("doi", "10.1103/PhysRevC.79.034909")];
     database.centrality_bins := three_bins;
     database.values := json.JList (map json.JInt [327; 261; 196]);
     database.errors := json.JList (map json.JInt [25; 20; 15]);
     database.trigger_info := [("Trigger", "BBC and TOF detectors")];
     database.params :=
       <["particle_type" := Str "pion"]>
         (<["rapidity_range" := List [Float (-1.0); Float 1.0]]>
            (<["pT_range" := List [Float 0.2; Float 3.0]]> ∅)) |}.

(** The entity of the same call with another particle type. *)
Definition alice_entity_identified : database.instance :=
  database.setattr alice_entity "particle_type" (Str "pion").

(** An entity whose values and errors are floats: 0.517, 0.503, 0.4876
    with errors 0.019, 0.0185, 0.02. *)
Definition mean_pT_entity : database.instance :=
  {| database.__class__ := database.MeanPT;
     database.name := "Mean transverse momentum of pions";
     database.short_name := "mean_pT_pion";
     database.collision_system := "Pb-Pb-2760";
     database.collaboration := "ALICE";
     database.reference := [("arXiv", "arXiv:1303.0737")];
     database.centrality_bins := three_bins;
     database.values :=
       json.JList
         [json.JFloat (json.Finite false json.nz5 (Some ([json.dig1], json.nz7)) 0);
          json.JFloat (json.Finite false json.nz5 (Some ([json.dig0], json.nz3)) 0);
          json.JFloat (json.Finite false json.nz4 (Some ([json.dig8; json.dig7], json.nz6)) 0)];
     database.errors :=
       json.JList
         [json.JFloat (json.Finite false json.nz1 (Some ([], json.nz9)) (-1));
          json.JFloat (json.Finite false json.nz1 (Some ([json.dig8], json.nz5)) (-1));
          json.JFloat (json.Finite false json.nz2 None (-1))];
     database.trigger_info := [("Trigger", "VZERO and SPD detectors")];
     database.params :=
       <["particle_type" := Str "pion"]>
         (<["rapidity_range" := List [Float (-0.5); Float 0.5]]>
            (<["pT_range" := List [Float 0.2; Float 3.0]]> ∅)) |}.

(** Two measurements of [v22] from two papers. *)
Definition v22_first : database.instance :=
  {| database.__class__ := database.IntegratedVn2;
     database.name := "Elliptic flow coefficient v2{2}";
     database.short_name := "v22";
     database.collision_system := "Pb-Pb-2760";
     database.collaboration := "ALICE";
     database.reference := [("arXiv", "arXiv:1105.3865")];
     database.centrality_bins := three_bins;
     database.values := json.JList (map json.JInt [3; 5; 7]);
     database.errors := json.JList (map json.JInt [1; 1; 1]);
     database.trigger_info := [("Trigger", "TPC and VZERO detectors")];
     database.params := <["harmonic_n" := Int 2]> flow_kwargs_without_harmonic_n |}.

Definition v22_second : database.instance :=
  {| database.__class__ := database.IntegratedVn2;
     database.name := "Elliptic flow coefficient v2{2}";
     database.short_name := "v22";
     database.collision_system := "Pb-Pb-2760";
     database.collaboration := "ATLAS";
     database.reference := [("arXiv", "arXiv:1203.3087")];
     database.centrality_bins := three_bins;
     database.values := json.JList (map json.JInt [4; 6; 8]);
     database.errors := json.JList (map json.JInt [2; 2; 2]);
     database.trigger_info := [("Trigger", "MBTS and ZDC")];
     database.params := <["harmonic_n" := Int 2]> flow_kwargs_without_harmonic_n |}.

(** A store whose system 1 is not the default one. *)
Definition store_with_other_system : sqlite3.db :=
  {| sqlite3.systems := [(1, "Au-Au-200")];
     sqlite3.collaborations := [(1, "STAR")];
     sqlite3.observables := [];
     sqlite3.experimental_results := [] |}.

(** The connection on a new file, and the rows of a small data file. *)
Definition new_connection : populate_db.connection :=
  {| populate_db.committed := {| populate_db.seq := 0; populate_db.rows := [] |};
     populate_db.working := {| populate_db.seq := 0; populate_db.rows := [] |} |}.

Definition two_data_rows : list (list float) :=
  [[0; 5; 2.5; 1601; 60]%float; [5; 10; 7.5; 1294; 49]%float].


(** A connection whose table holds the largest rowid but one. *)
Definition nearly_full_connection : populate_db.connection :=
  let t :=
    {| populate_db.seq := 9223372036854775806;
       populate_db.rows :=
         [stored 9223372036854775806 "Pb-Pb-2760" "ALICE" "dNch_deta" "arXiv:1012.1657"
            [0; 5; 2.5; 1601; 60]%float] |} in
  {| populate_db.committed := t; populate_db.working := t |}.

(** A CSV file without the column [cent_high]. *)
Definition csv_without_cent_high : populate_db.DataFrame :=
  {| populate_db.columns := ["cent_low"; "val"; "err"];
     populate_db.index := [[0; 1601; 60]%float] |}.

(** * Properties *)

(** ** Reading back what [json.dumps] wrote *)

Section JsonRoundTrip.

Import json.

Local Open Scope list_scope.

Lemma digit_of_Some c f :
  digit_of c = Some f ->
  is_space c = false /\ Ascii.eqb c "[" = false /\ Ascii.eqb c "]" = false
  /\ Ascii.eqb c "-" = false /\ Ascii.eqb c "," = false.
Proof.
  unfold digit_of.
  intros H.
  repeat match type of H with
         | context [Ascii.eqb c ?d] =>
             destruct (Ascii.eqb_spec c d) as [->|_]; [by vm_compute|]
         end.
  discriminate.
Qed.

Lemma append_cons c s t : (String c s ++ t)%string = String c (s ++ t)%string.
Proof. reflexivity. Qed.

Lemma append_nil t : ("" ++ t)%string = t.
Proof. reflexivity. Qed.

Lemma append_assoc (s t u : string) : ((s ++ t) ++ u)%string = (s ++ t ++ u)%string.
Proof. induction s as [|c s IH]; [done|]. by rewrite !append_cons, IH. Qed.

Lemma append_nil_r (s : string) : (s ++ "")%string = s.
Proof. induction s as [|c s IH]; [done|]. by rewrite append_cons, IH. Qed.

Lemma length_append (s t : string) :
  String.length (s ++ t)%string = (String.length s + String.length t)%nat.
Proof.
  induction s as [|c s IH]; [done|]. rewrite append_cons. cbn [String.length]. by rewrite IH.
Qed.

Lemma number_ends_no_digit rest : number_ends rest -> no_digit_ahead rest.
Proof. destruct rest; [done|]. by intros (? & _). Qed.

Lemma read_digits_cons c f s :
  digit_of c = Some f ->
  read_digits (String c s) = (f (read_digits s).1, (read_digits s).2).
Proof. intros H. cbn [read_digits]. rewrite H. by destruct (read_digits s). Qed.

Lemma read_digits_string_of_uint d rest :
  no_digit_ahead rest ->
  read_digits (NilEmpty.string_of_uint d ++ rest)%string = (d, rest).
Proof.
  intros Hrest.
  induction d; cbn [NilEmpty.string_of_uint];
    rewrite ?append_cons, ?append_nil;
    try (erewrite read_digits_cons by (by vm_compute); by rewrite IHd).
  destruct rest as [|c rest']; [done|].
  cbn [no_digit_ahead] in Hrest. cbn [read_digits]. by rewrite Hrest.
Qed.

Lemma read_digits1_string_of_uint d rest :
  d <> Decimal.Nil -> no_digit_ahead rest ->
  read_digits1 (NilEmpty.string_of_uint d ++ rest)%string = Some (d, rest).
Proof.
  intros Hd Hrest. unfold read_digits1. rewrite read_digits_string_of_uint by done.
  by destruct d.
Qed.

Lemma nzhead_not_D0 d :
  match Decimal.nzhead d with Decimal.D0 _ => False | _ => True end.
Proof. induction d; cbn; done. Qed.

(** The decimal digits of a positive number: at least one, and the
    first is not a zero. *)
Lemma to_uint_head p :
  match Pos.to_uint p with
  | Decimal.Nil | Decimal.D0 _ => False
  | _ => True
  end.
Proof.
  pose proof (DecimalPos.Unsigned.to_of (Pos.to_uint p)) as Hnorm.
  pose proof (DecimalPos.Unsigned.of_to p) as Hof.
  rewrite Hof in Hnorm. cbn [N.to_uint] in Hnorm.
  unfold Decimal.unorm in Hnorm.
  pose proof (nzhead_not_D0 (Pos.to_uint p)) as Hhead.
  destruct (Decimal.nzhead (Pos.to_uint p)) eqn:Hnz;
    rewrite Hnorm in *; done.
Qed.

Lemma string_of_uint_pos p :
  NilZero.string_of_uint (Pos.to_uint p) = NilEmpty.string_of_uint (Pos.to_uint p).
Proof.
  pose proof (to_uint_head p) as Hhead. by destruct (Pos.to_uint p).
Qed.

(** The first character of a positive number's digits is a digit other
    than zero. *)
Lemma string_of_uint_head p :
  exists c s f, NilEmpty.string_of_uint (Pos.to_uint p) = String c s
                /\ digit_of c = Some f /\ Ascii.eqb c "0" = false.
Proof.
  pose proof (to_uint_head p) as Hhead.
  destruct (Pos.to_uint p); try done; cbn [NilEmpty.string_of_uint]; by eexists _, _, _.
Qed.

(** *** Digits *)

Lemma digits_of_uint_of_digits ds : digits_of_uint (uint_of_digits ds) = ds.
Proof. induction ds as [|[] ds IH]; cbn; by rewrite ?IH. Qed.

Lemma text_string_of_uint ds : text ds = NilEmpty.string_of_uint (uint_of_digits ds).
Proof. induction ds as [|[] ds IH]; cbn; by rewrite ?IH. Qed.

Lemma text_app ds es : text (ds ++ es) = (text ds ++ text es)%string.
Proof. induction ds as [|d ds IH]; [done|]. cbn [app text]. by rewrite append_cons, IH. Qed.

Lemma uint_of_digits_nil ds : ds <> [] -> uint_of_digits ds <> Decimal.Nil.
Proof. by destruct ds as [|[] ds]. Qed.

Lemma read_digits1_text ds rest :
  ds <> [] -> no_digit_ahead rest ->
  read_digits1 (text ds ++ rest)%string = Some (uint_of_digits ds, rest).
Proof.
  intros Hds Hrest. rewrite text_string_of_uint.
  by apply read_digits1_string_of_uint; [apply uint_of_digits_nil|].
Qed.

Lemma no_digit_ahead_point s : no_digit_ahead (String "." s).
Proof. done. Qed.

Lemma no_digit_ahead_e s : no_digit_ahead (String "e" s).
Proof. done. Qed.

Lemma char_of_nonzero d :
  Ascii.eqb (char_of (digit_of_nonzero d)) "0" = false
  /\ Ascii.eqb (char_of (digit_of_nonzero d)) "-" = false.
Proof. by destruct d. Qed.

Lemma char_of_digit d :
  is_space (char_of d) = false /\ Ascii.eqb (char_of d) "[" = false
  /\ Ascii.eqb (char_of d) "]" = false /\ Ascii.eqb (char_of d) "-" = false.
Proof. by destruct d. Qed.

(** A run of digits whose first is not a zero is read as the integer
    part. *)
Lemma read_integer_text d ds rest :
  no_digit_ahead rest ->
  read_integer (text (digit_of_nonzero d :: ds) ++ rest)%string
  = Some (uint_of_digits (digit_of_nonzero d :: ds), rest).
Proof.
  intros Hrest.
  pose proof (read_digits1_text (digit_of_nonzero d :: ds) rest ltac:(done) Hrest) as Hread.
  cbn [text] in *. rewrite append_cons in *. cbn [read_integer].
  by rewrite (proj1 (char_of_nonzero d)).
Qed.

Lemma read_fraction_text ds rest :
  ds <> [] -> no_digit_ahead rest ->
  read_fraction (String "." (text ds ++ rest)%string) = Some (uint_of_digits ds, rest).
Proof. intros Hds Hrest. cbn [read_fraction]. by apply read_digits1_text. Qed.

Lemma read_fraction_ends rest : number_ends rest -> read_fraction rest = None.
Proof. destruct rest as [|c rest]; [done|]. intros (_ & Hp & _). cbn. by rewrite Hp. Qed.

Lemma read_exponent_ends rest : number_ends rest -> read_exponent rest = None.
Proof. destruct rest as [|c rest]; [done|]. intros (_ & _ & He & HE). cbn. by rewrite He, HE. Qed.

Lemma of_uint_to_uint n : Z.of_uint (N.to_uint n) = Z.of_N n.
Proof.
  unfold Z.of_uint. destruct n as [|p]; [done|]. cbn [N.to_uint].
  by rewrite DecimalPos.Unsigned.of_to.
Qed.

Lemma to_uint_not_nil n : N.to_uint n <> Decimal.Nil.
Proof.
  destruct n as [|p]; [done|]. cbn [N.to_uint].
  pose proof (to_uint_head p). by destruct (Pos.to_uint p).
Qed.

Lemma exponent_digits_spec e :
  exponent_digits e <> Decimal.Nil /\ Z.of_uint (exponent_digits e) = Z.abs e.
Proof.
  unfold exponent_digits.
  pose proof (to_uint_not_nil (Z.abs_N e)) as Hnil.
  pose proof (of_uint_to_uint (Z.abs_N e)) as Hval.
  rewrite N2Z.inj_abs_N in Hval.
  destruct (_ <? _)%nat; [|done].
  split; [done|]. by rewrite <- Hval.
Qed.

Lemma read_exponent_text e rest :
  no_digit_ahead rest ->
  read_exponent (String "e" (exponent_text e ++ rest)%string) = Some (e, rest).
Proof.
  intros Hrest. destruct (exponent_digits_spec e) as [Hnil Hval].
  unfold exponent_text. cbn [read_exponent].
  change (Ascii.eqb "e" "e" || Ascii.eqb "e" "E") with true. cbn iota.
  destruct (Z.ltb_spec e 0); rewrite !append_cons, !append_nil.
  - change (Ascii.eqb "-" "-") with true. cbn iota.
    rewrite read_digits1_string_of_uint by done. cbn. rewrite Hval. f_equal. f_equal. lia.
  - change (Ascii.eqb "+" "-") with false. change (Ascii.eqb "+" "+") with true. cbn iota.
    rewrite read_digits1_string_of_uint by done. cbn. rewrite Hval. f_equal. f_equal. lia.
Qed.

(** *** The digits of a float *)

Lemma count_zeros_zeros k ds :
  count_zeros ds = O -> count_zeros (zeros k ++ ds) = k.
Proof. intros H. unfold zeros. induction k as [|k IH]; [done|]. cbn. by rewrite IH. Qed.

Lemma strip_zeros_zeros k ds :
  count_zeros ds = O -> strip_zeros (zeros k ++ ds) = ds.
Proof.
  intros H. unfold strip_zeros. rewrite count_zeros_zeros by done.
  rewrite drop_app_length'; [done|]. unfold zeros. by rewrite length_replicate.
Qed.

Lemma count_zeros_nonzero d ds : count_zeros (digit_of_nonzero d :: ds) = O.
Proof. by destruct d. Qed.

Lemma float_digits_reverse first more :
  exists d ds, reverse (float_digits first more) = digit_of_nonzero d :: ds.
Proof.
  unfold float_digits. destruct more as [[middle last]|].
  - exists last. eexists. by rewrite reverse_cons, reverse_app, <- app_assoc.
  - by exists first, [].
Qed.

Lemma split_last_snoc ds d : split_last (ds ++ [d]) = Some (ds, d).
Proof. induction ds as [|x ds IH]; [done|]. cbn [app split_last]. by rewrite IH. Qed.

Lemma nonzero_of_digit d : nonzero_of (digit_of_nonzero d) = Some d.
Proof. by destruct d. Qed.

Lemma mantissa_float_digits first more :
  mantissa (float_digits first more) = Some (first, more).
Proof.
  unfold float_digits, mantissa. rewrite nonzero_of_digit. cbn.
  destruct more as [[middle last]|]; [|done].
  by rewrite split_last_snoc, nonzero_of_digit.
Qed.

Lemma reverse_zeros k : reverse (zeros k) = zeros k.
Proof.
  unfold zeros. induction k as [|k IH]; [done|].
  cbn [replicate]. rewrite reverse_cons, IH.
  clear IH. induction k as [|k IH]; [done|]. cbn. by rewrite IH.
Qed.

(** Zeros before and after the digits of a float move the point and
    nothing else. *)
Lemma float_of_decimal_digits negative first more k j int frac e :
  int ++ frac = zeros k ++ float_digits first more ++ zeros j ->
  float_of_decimal negative int frac e
  = Finite negative first more (Z.of_nat (length int) + e - Z.of_nat k).
Proof.
  intros Hds. unfold float_of_decimal. rewrite Hds.
  assert (count_zeros (float_digits first more ++ zeros j) = O) as Hhead
    by apply count_zeros_nonzero.
  rewrite count_zeros_zeros, strip_zeros_zeros by done.
  rewrite reverse_app, reverse_zeros.
  destruct (float_digits_reverse first more) as (d & ds & Hrev).
  rewrite strip_zeros_zeros by (rewrite Hrev; apply count_zeros_nonzero).
  by rewrite reverse_involutive, mantissa_float_digits.
Qed.

(** *** Numbers *)

Lemma read_sign_text negative c s :
  Ascii.eqb c "-" = false ->
  read_sign (sign negative ++ String c s)%string = (negative, String c s).
Proof.
  intros Hc. destruct negative; [done|]. cbn [sign]. rewrite append_nil. cbn [read_sign].
  by rewrite Hc.
Qed.

Lemma read_tail_int negative int rest :
  number_ends rest ->
  read_tail negative int rest
  = Some (JInt (if negative then - Z.of_uint int else Z.of_uint int), rest).
Proof.
  intros Hrest. unfold read_tail. by rewrite read_fraction_ends, read_exponent_ends.
Qed.

Lemma read_number_int z rest :
  number_ends rest -> read_number (str_int z ++ rest)%string = Some (JInt z, rest).
Proof.
  intros Hrest. pose proof (number_ends_no_digit _ Hrest) as Hdigit.
  unfold str_int, read_number.
  destruct z as [|p|p]; cbn [Z.to_int NilZero.string_of_int].
  - change (NilZero.string_of_uint (Decimal.D0 Decimal.Nil)) with "0"%string.
    rewrite append_cons, append_nil. cbn. by rewrite read_tail_int.
  - rewrite string_of_uint_pos.
    destruct (string_of_uint_head p) as (c & s & f & Hs & Hc & Hzero).
    destruct (digit_of_Some _ _ Hc) as (_ & _ & _ & Hminus & _).
    pose proof (read_digits1_string_of_uint (Pos.to_uint p) rest) as Hread.
    rewrite Hs in *. rewrite append_cons in *. cbn [read_sign].
    rewrite Hminus. cbn [read_integer].
    rewrite Hzero, Hread; [|by destruct (Pos.to_uint p)|done].
    cbn [mbind option_bind]. rewrite read_tail_int by done.
    unfold Z.of_uint. by rewrite DecimalPos.Unsigned.of_to.
  - rewrite string_of_uint_pos, append_cons. cbn [read_sign].
    change (Ascii.eqb "-" "-") with true. cbn iota.
    destruct (string_of_uint_head p) as (c & s & f & Hs & Hc & Hzero).
    pose proof (read_digits1_string_of_uint (Pos.to_uint p) rest) as Hread.
    rewrite Hs in *. rewrite append_cons in *. cbn [read_integer].
    rewrite Hzero, Hread; [|by destruct (Pos.to_uint p)|done].
    cbn [mbind option_bind]. rewrite read_tail_int by done.
    unfold Z.of_uint. by rewrite DecimalPos.Unsigned.of_to.
Qed.

Lemma read_tail_fraction negative int frac rest :
  frac <> [] -> number_ends rest ->
  read_tail negative int (String "." (text frac ++ rest)%string)
  = Some (JFloat (float_of_decimal negative (digits_of_uint int) frac 0), rest).
Proof.
  intros Hfrac Hrest. unfold read_tail.
  rewrite read_fraction_text by (done || by apply number_ends_no_digit).
  rewrite read_exponent_ends by done. cbn. by rewrite digits_of_uint_of_digits.
Qed.

Lemma read_tail_exponent negative int e rest :
  number_ends rest ->
  read_tail negative int (String "e" (exponent_text e ++ rest)%string)
  = Some (JFloat (float_of_decimal negative (digits_of_uint int) [] e), rest).
Proof.
  intros Hrest. unfold read_tail.
  change (read_fraction (String "e" ?s)) with (@None (Decimal.uint * string)).
  cbn beta iota zeta.
  by rewrite read_exponent_text by (by apply number_ends_no_digit).
Qed.

Lemma read_tail_fraction_exponent negative int frac e rest :
  frac <> [] -> number_ends rest ->
  read_tail negative int (String "." (text frac ++ String "e" (exponent_text e ++ rest))%string)
  = Some (JFloat (float_of_decimal negative (digits_of_uint int) frac e), rest).
Proof.
  intros Hfrac Hrest. unfold read_tail.
  rewrite read_fraction_text by done. cbn beta iota zeta.
  rewrite read_exponent_text by (by apply number_ends_no_digit).
  cbn. by rewrite digits_of_uint_of_digits.
Qed.

Ltac same_point tac :=
  match goal with
  | |- JFloat (Finite _ _ _ ?a) = JFloat (Finite _ _ _ ?b) =>
      replace a with b; [reflexivity|tac; lia]
  end.

Ltac flatten_text :=
  rewrite ?text_app; cbn [text]; rewrite ?append_assoc, ?append_cons, ?append_nil.

Lemma zeros_S_end j : zeros (S j) = zeros j ++ [dig0].
Proof. unfold zeros. induction j as [|j IH]; [done|]. cbn in *. by rewrite <- IH. Qed.

Lemma read_number_float x rest :
  number_ends rest ->
  match x with Zero _ | Finite _ _ _ _ => True | _ => False end ->
  read_number (float_text x ++ rest)%string = Some (JFloat x, rest).
Proof.
  intros Hrest Hx. pose proof (number_ends_no_digit _ Hrest) as Hdigit.
  destruct x as [negative|negative first more point| |]; try done; clear Hx;
    unfold read_number, float_text.
  - rewrite append_assoc, !append_cons, append_nil.
    rewrite read_sign_text by done. cbn [read_integer].
    change (Ascii.eqb "0" "0") with true. cbn [mbind option_bind].
    change rest with (text [] ++ rest)%string at 1.
    change (String "0" (text [] ++ rest)%string) with (text [dig0] ++ rest)%string.
    by rewrite read_tail_fraction.
  - set (ds := float_digits first more).
    assert (exists tl, ds = digit_of_nonzero first :: tl) as [tl Hds] by (by eexists).
    destruct (char_of_nonzero first) as [Hzero Hminus].
    destruct ((-4 <? point)%Z && (point <=? 16)%Z) eqn:Hrange; cbn zeta.
    + apply andb_prop in Hrange as [Hlow%Z.ltb_lt Hhigh%Z.leb_le].
      destruct (Z.leb_spec point 0) as [Hpoint|Hpoint];
        [|destruct (Z.leb_spec (Z.of_nat (length ds)) point) as [Hlen|Hlen]].
      * rewrite append_assoc, !append_cons, append_nil.
        rewrite read_sign_text by done. cbn [read_integer].
        change (Ascii.eqb "0" "0") with true. cbn [mbind option_bind].
        rewrite read_tail_fraction by (done || by rewrite Hds; destruct (Z.to_nat _)).
        f_equal. f_equal.
        rewrite (float_of_decimal_digits negative first more (S (Z.to_nat (- point))) 0).
        -- same_point ltac:(cbn [digits_of_uint length]).
        -- cbn [digits_of_uint]. fold ds. by rewrite app_nil_r.
      * rewrite Hds. flatten_text. rewrite read_sign_text by done.
        change (String (char_of (digit_of_nonzero first)) (text tl ++ text (zeros ?j) ++ ?r)%string)
          with (text (digit_of_nonzero first :: tl) ++ text (zeros j) ++ r)%string.
        rewrite <- append_assoc, <- text_app, <- app_comm_cons.
        rewrite read_integer_text by done. cbn [mbind option_bind].
        change (String "0" rest) with (text [dig0] ++ rest)%string.
        rewrite read_tail_fraction by done. f_equal. f_equal.
        rewrite digits_of_uint_of_digits, app_comm_cons, <- Hds.
        rewrite (float_of_decimal_digits negative first more 0 (S (Z.to_nat (point - Z.of_nat (length ds))))).
        -- same_point ltac:(rewrite length_app; unfold zeros; rewrite length_replicate).
        -- fold ds. rewrite zeros_S_end. cbn [zeros replicate app]. by rewrite app_assoc.
      * assert (exists p, Z.to_nat point = S p) as [p Hp] by (exists (Z.to_nat point - 1)%nat; lia).
        rewrite Hp. rewrite Hds at 1. cbn [take]. flatten_text.
        rewrite read_sign_text by done.
        change (String (char_of (digit_of_nonzero first)) (text (take p tl) ++ ?r)%string)
          with (text (digit_of_nonzero first :: take p tl) ++ r)%string.
        rewrite read_integer_text by done. cbn [mbind option_bind].
        rewrite read_tail_fraction; [|intros Hnil; apply (f_equal length) in Hnil;
                                      rewrite length_drop in Hnil; cbn [length] in Hnil; lia|done].
        f_equal. f_equal. rewrite digits_of_uint_of_digits.
        rewrite (float_of_decimal_digits negative first more 0 0).
        -- rewrite Hds in Hlen. cbn [length] in Hlen.
           same_point ltac:(cbn [length]; rewrite length_take).
        -- fold ds. cbn [zeros replicate app]. rewrite app_nil_r.
           rewrite <- (take_drop (S p) ds) at 2. by rewrite Hds at 2.
    + assert (point <= -4 \/ 16 < point) as Hpoint.
      { apply andb_false_iff in Hrange as [H%Z.ltb_ge|H%Z.leb_gt]; lia. }
      cbn [text]. rewrite ?append_assoc, ?append_cons, ?append_nil.
      rewrite read_sign_text by done.
      destruct more as [[middle last]|].
      * rewrite ?append_assoc, ?append_cons, ?append_nil.
        change (String (char_of (digit_of_nonzero first)) ?r)
          with (text [digit_of_nonzero first] ++ r)%string.
        rewrite read_integer_text by done. cbn [mbind option_bind].
        rewrite read_tail_fraction_exponent;
          [|unfold ds, float_digits; cbn [tail]; by destruct middle|done].
        f_equal. f_equal. rewrite digits_of_uint_of_digits.
        rewrite (float_of_decimal_digits negative first (Some (middle, last)) 0 0).
        -- same_point ltac:(cbn [length]).
        -- cbn [zeros replicate app]. by rewrite app_nil_r.
      * rewrite !append_nil.
        change (String (char_of (digit_of_nonzero first)) ?r)
          with (text [digit_of_nonzero first] ++ r)%string.
        rewrite read_integer_text by done. cbn [mbind option_bind].
        rewrite read_tail_exponent by done.
        f_equal. f_equal. rewrite digits_of_uint_of_digits.
        rewrite (float_of_decimal_digits negative first None 0 0).
        -- same_point ltac:(cbn [length]).
        -- done.
Qed.

Lemma read_scalar_float x rest :
  number_ends rest -> read_scalar (float_text x ++ rest)%string = Some (JFloat x, rest).
Proof.
  intros Hrest. unfold read_scalar.
  destruct x as [negative|negative first more point|[]|];
    try (by rewrite read_number_float); cbn [float_text sign];
    rewrite ?append_cons, ?append_nil; cbn; by destruct rest.
Qed.

(** What [dumps] writes for a number starts with a sign, a digit or a
    letter. *)
Lemma float_text_head x :
  exists c s, float_text x = String c s /\ is_space c = false
              /\ Ascii.eqb c "[" = false /\ Ascii.eqb c "]" = false.
Proof.
  destruct x as [[]|[] first more point|[]|]; try (by eexists _, _).
  cbn [float_text sign]. rewrite append_nil.
  destruct (char_of_digit (digit_of_nonzero first)) as (? & ? & ? & _).
  destruct (_ && _); [|by eexists _, _].
  destruct (Z.leb_spec point 0); [by eexists _, _|].
  destruct (_ <=? _)%Z; [by eexists _, _|].
  destruct (Z.to_nat point) as [|p] eqn:Hp; [lia|]. by eexists _, _.
Qed.

Lemma str_int_head z :
  exists c s, str_int z = String c s /\ is_space c = false
              /\ Ascii.eqb c "[" = false /\ Ascii.eqb c "]" = false.
Proof.
  unfold str_int. destruct z as [|p|p]; cbn [Z.to_int NilZero.string_of_int].
  - by eexists _, _.
  - rewrite string_of_uint_pos.
    destruct (string_of_uint_head p) as (c & s & f & -> & Hc & _).
    destruct (digit_of_Some _ _ Hc) as (? & ? & ? & _). by eexists _, _.
  - by eexists _, _.
Qed.

Lemma data_nested_ind (P : data -> Prop) :
  (forall z, P (JInt z)) ->
  (forall x, P (JFloat x)) ->
  (forall items, Forall P items -> P (JList items)) ->
  forall v, P v.
Proof.
  intros Hint Hfloat Hlist. fix IH 1. intros [z|x|items]; [apply Hint|apply Hfloat|].
  apply Hlist. induction items as [|x items IHitems]; constructor; [apply IH|apply IHitems].
Qed.

Lemma skip_ws_head c s : is_space c = false -> skip_ws (String c s) = String c s.
Proof. intros H. cbn [skip_ws]. by rewrite H. Qed.

Lemma parse_value_scalar fuel c s :
  is_space c = false -> Ascii.eqb c "[" = false ->
  parse_value (S fuel) (String c s) = read_scalar (String c s).
Proof. intros Hsp Hopen. cbn [parse_value]. rewrite skip_ws_head by done. by rewrite Hopen. Qed.

Lemma parse_value_int fuel z rest :
  number_ends rest ->
  parse_value (S fuel) (str_int z ++ rest)%string = Some (JInt z, rest).
Proof.
  intros Hrest. pose proof (read_number_int z rest Hrest) as Hread.
  destruct (str_int_head z) as (c & s & Hs & Hsp & Hopen & _).
  rewrite Hs in *. rewrite append_cons in *.
  rewrite parse_value_scalar by done. unfold read_scalar. by rewrite Hread.
Qed.

Lemma parse_value_float fuel x rest :
  number_ends rest ->
  parse_value (S fuel) (float_text x ++ rest)%string = Some (JFloat x, rest).
Proof.
  intros Hrest. pose proof (read_scalar_float x rest Hrest) as Hread.
  destruct (float_text_head x) as (c & s & Hs & Hsp & Hopen & _).
  rewrite Hs in *. rewrite append_cons in *.
  by rewrite parse_value_scalar.
Qed.

(** [dumps] starts with a bracket, a sign, a digit or a letter. *)
Lemma dumps_head v :
  exists c s, dumps v = String c s /\ is_space c = false /\ Ascii.eqb c "]" = false.
Proof.
  destruct v as [z|x|items]; cbn [dumps].
  - destruct (str_int_head z) as (c & s & -> & ? & _ & ?). by eexists _, _.
  - destruct (float_text_head x) as (c & s & -> & ? & _ & ?). by eexists _, _.
  - rewrite append_cons. by eexists _, _.
Qed.

Lemma parse_value_space fuel s : parse_value fuel (String " " s) = parse_value fuel s.
Proof. destruct fuel; [done|]. cbn [parse_value]. by rewrite (eq_refl : skip_ws (String " " s) = skip_ws s). Qed.

Lemma parse_items_space fuel s : parse_items fuel (String " " s) = parse_items fuel s.
Proof. destruct fuel; [done|]. cbn [parse_items]. by rewrite parse_value_space. Qed.

(** The items of a non-empty list, up to the closing bracket. *)
Lemma parse_items_dumps items :
  Forall (fun v => forall fuel rest, (size v <= fuel)%nat -> number_ends rest ->
                   parse_value fuel (dumps v ++ rest)%string = Some (v, rest)) items ->
  items <> [] ->
  forall fuel rest,
    (list_sum (map (fun x => S (size x)) items) <= fuel)%nat ->
    parse_items fuel (join ", " (map dumps items) ++ String "]" rest)%string
    = Some (items, rest).
Proof.
  induction 1 as [|v vs Hv Hvs IH]; [done|]. intros _ fuel rest Hfuel.
  cbn [map list_sum foldr] in Hfuel.
  destruct fuel as [|fuel]; [lia|]. cbn [parse_items].
  destruct vs as [|v' vs].
  - cbn [map join]. rewrite Hv by (done || lia).
    cbn. done.
  - change (join ", " (map dumps (v :: v' :: vs)))
      with (dumps v ++ ", " ++ join ", " (map dumps (v' :: vs)))%string.
    rewrite !append_assoc, !append_cons, append_nil.
    rewrite Hv by (done || lia).
    cbn [mbind option_bind]. rewrite skip_ws_head by done.
    change (Ascii.eqb "," ",") with true. cbn iota.
    rewrite parse_items_space, IH by (done || unfold list_sum; lia). done.
Qed.

Lemma parse_value_dumps v :
  forall fuel rest, (size v <= fuel)%nat -> number_ends rest ->
    parse_value fuel (dumps v ++ rest)%string = Some (v, rest).
Proof.
  induction v as [z|x|items IH] using data_nested_ind; intros fuel rest Hfuel Hrest.
  - destruct fuel; [cbn in Hfuel; lia|]. by apply parse_value_int.
  - destruct fuel; [cbn in Hfuel; lia|]. by apply parse_value_float.
  - cbn [size] in Hfuel. destruct fuel as [|fuel]; [lia|].
    cbn [dumps]. rewrite !append_assoc, !append_cons, !append_nil.
    cbn [parse_value]. rewrite skip_ws_head by done.
    change (Ascii.eqb "[" "[") with true. cbn iota.
    destruct items as [|v vs].
    + cbn [map join]. rewrite append_nil, skip_ws_head by done. done.
    + pose proof (parse_items_dumps (v :: vs) IH ltac:(done) fuel rest ltac:(lia)) as Hitems.
      destruct (dumps_head v) as (c & s & Hs & Hsp & Hclose).
      assert (exists s', (join ", " (map dumps (v :: vs)) ++ String "]" rest)%string = String c s')
        as [s' Hjoin].
      { destruct vs; cbn [map join]; rewrite Hs, ?append_cons; eauto. }
      rewrite Hjoin in *. rewrite skip_ws_head by done. rewrite Hclose, Hitems. done.
Qed.

Lemma size_le_length v : (size v <= String.length (dumps v))%nat.
Proof.
  induction v as [z|x|items IH] using data_nested_ind.
  - destruct (dumps_head (JInt z)) as (c & s & -> & _). cbn. lia.
  - destruct (dumps_head (JFloat x)) as (c & s & -> & _). cbn. lia.
  - cbn [size dumps]. rewrite append_cons, append_nil. cbn [String.length].
    rewrite length_append. cbn [String.length].
    enough (list_sum (map (fun x => S (size x)) items)
            <= String.length (join ", " (map dumps items)) + 1)%nat by lia.
    induction IH as [|v vs Hv Hvs IHvs]; [cbn; lia|].
    destruct vs as [|v' vs].
    + unfold list_sum. cbn [map foldr join]. lia.
    + change (join ", " (map dumps (v :: v' :: vs)))
        with (dumps v ++ ", " ++ join ", " (map dumps (v' :: vs)))%string.
      rewrite !length_append. unfold list_sum in *.
      cbn [map foldr String.length] in *. lia.
Qed.

(** [json.loads(json.dumps(v))] is [v]. *)
Lemma loads_dumps v : loads (dumps v) = Return v.
Proof.
  unfold loads.
  pose proof (parse_value_dumps v (S (String.length (dumps v))) "") as Hparse.
  rewrite append_nil_r in Hparse. rewrite Hparse; [done| |done].
  pose proof (size_le_length v). lia.
Qed.

End JsonRoundTrip.

(** ** Construction of observables *)

Section Construction.

Import database.

Lemma setattr_params self k v : params (setattr self k v) = <[k := v]> (params self).
Proof. reflexivity. Qed.

Lemma first_missing_cons_present q required (kwargs : gmap string value) :
  is_Some (kwargs !! q) ->
  first_missing (q :: required) kwargs = first_missing required kwargs.
Proof.
  intros [v Hv]. unfold first_missing. cbn [find].
  rewrite bool_decide_eq_false_2; [done|]. by rewrite Hv.
Qed.

Lemma first_missing_cons_absent q required (kwargs : gmap string value) :
  kwargs !! q = None -> first_missing (q :: required) kwargs = Some q.
Proof.
  intros Hq. unfold first_missing. cbn [find]. by rewrite bool_decide_eq_true_2.
Qed.

(** [first_missing] finds a name exactly when one is missing, and the
    names before it are all present. *)
Lemma first_missing_Some required (kwargs : gmap string value) p :
  first_missing required kwargs = Some p <->
  exists pre post, required = (pre ++ p :: post)%list
                   /\ Forall (fun q => is_Some (kwargs !! q)) pre
                   /\ kwargs !! p = None.
Proof.
  induction required as [|q required IH].
  - split; [done|]. intros (pre & post & Heq & _). by destruct pre.
  - destruct (kwargs !! q) as [v|] eqn:Hq.
    + rewrite first_missing_cons_present by (by rewrite Hq). rewrite IH. split.
      * intros (pre & post & -> & Hpre & Hp). exists (q :: pre), post.
        split_and!; [done| |done]. constructor; [by rewrite Hq|done].
      * intros (pre & post & Heq & Hpre & Hp). destruct pre as [|q' pre].
        -- injection Heq as -> _. congruence.
        -- injection Heq as -> ->. exists pre, post. by inversion_clear Hpre.
    + rewrite first_missing_cons_absent by done. split.
      * intros [= <-]. by exists [], required.
      * intros (pre & post & Heq & Hpre & Hp). destruct pre as [|q' pre].
        -- by injection Heq as -> _.
        -- injection Heq as -> ->. inversion_clear Hpre as [|? ? [? Hsome] ?]. congruence.
Qed.

Lemma first_missing_exists required (kwargs : gmap string value) :
  (exists q, q ∈ required /\ kwargs !! q = None) ->
  exists p, first_missing required kwargs = Some p.
Proof.
  intros (q & Hin & Hq). induction required as [|q' required IH].
  - by apply elem_of_nil in Hin.
  - destruct (kwargs !! q') as [v|] eqn:Hq'.
    + rewrite first_missing_cons_present by (by rewrite Hq').
      apply IH. apply elem_of_cons in Hin as [->|Hin]; [congruence|done].
    + rewrite first_missing_cons_absent by done. eauto.
Qed.

Lemma first_missing_None required (kwargs : gmap string value) :
  first_missing required kwargs = None <->
  forall q, q ∈ required -> is_Some (kwargs !! q).
Proof.
  induction required as [|q' required IH].
  - split; [|done]. intros _ q Hq. by apply elem_of_nil in Hq.
  - destruct (kwargs !! q') as [v|] eqn:Hq'.
    + rewrite first_missing_cons_present by (by rewrite Hq'). rewrite IH. split.
      * intros H q [->|Hin]%elem_of_cons; [by rewrite Hq'|by apply H].
      * intros H q Hin. apply H. by apply elem_of_cons; right.
    + rewrite first_missing_cons_absent by done. split; [done|].
      intros H. destruct (H q') as [v Hv]; [by apply elem_of_cons; left|congruence].
Qed.

(** The loop fails at the first missing name. *)
Lemma set_required_missing todo kwargs self p :
  first_missing todo kwargs = Some p ->
  set_required todo kwargs self
  = Raise (ValueError ("Missing required parameter: " ++ p ++ " for "
                         ++ __name__ (__class__ self))).
Proof.
  revert self. induction todo as [|q todo IH]; intros self Hp; [done|].
  cbn [set_required]. destruct (kwargs !! q) as [v|] eqn:Hq.
  - rewrite first_missing_cons_present in Hp by (by rewrite Hq).
    by rewrite (IH (setattr self q v) Hp).
  - rewrite first_missing_cons_absent in Hp by done. by injection Hp as ->.
Qed.

(** With nothing missing the loop ends normally; it has touched only
    [params], where the names of [todo] now have their keyword values. *)
Lemma set_required_complete todo kwargs self :
  first_missing todo kwargs = None ->
  exists o, set_required todo kwargs self = Return o
    /\ __class__ o = __class__ self /\ name o = name self
    /\ short_name o = short_name self
    /\ collision_system o = collision_system self
    /\ collaboration o = collaboration self
    /\ reference o = reference self
    /\ centrality_bins o = centrality_bins self
    /\ values o = values self /\ errors o = errors self
    /\ trigger_info o = trigger_info self
    /\ forall k, params o !! k
                 = if bool_decide (k ∈ todo) then kwargs !! k else params self !! k.
Proof.
  revert self. induction todo as [|q todo IH]; intros self Hnone.
  - exists self. by split_and!.
  - cbn [set_required]. destruct (kwargs !! q) as [v|] eqn:Hq.
    + rewrite first_missing_cons_present in Hnone by (by rewrite Hq).
      destruct (IH (setattr self q v) Hnone) as (o & -> & ? & ? & ? & ? & ? & ? & ? & ? & ? & ? & Hpar).
      exists o. split_and!; try done. intros k. rewrite Hpar, setattr_params.
      destruct (decide (k ∈ todo)) as [Hin|Hin].
      * rewrite !bool_decide_eq_true_2; [done| |done]. by apply elem_of_cons; right.
      * rewrite (bool_decide_eq_false_2 _ Hin).
        destruct (decide (k = q)) as [->|Hne].
        -- rewrite lookup_insert_eq, bool_decide_eq_true_2; [done|]. by apply elem_of_cons; left.
        -- rewrite lookup_insert_ne by done. rewrite bool_decide_eq_false_2; [done|].
           intros [->|?]%elem_of_cons; done.
    + by rewrite first_missing_cons_absent in Hnone.
Qed.

(** A keyword that the loop never asks for changes nothing. *)
Lemma set_required_extra todo (kwargs : gmap string value) self k v :
  k ∉ todo ->
  set_required todo (<[k := v]> kwargs) self = set_required todo kwargs self.
Proof.
  revert self. induction todo as [|q todo IH]; intros self Hk; [done|].
  apply not_elem_of_cons in Hk as [Hne Hk]. cbn [set_required].
  rewrite lookup_insert_ne by done.
  destruct (kwargs !! q); [by apply IH|done].
Qed.

Section Init.

Variables (cls : class) (name short_name collision_system collaboration : string)
          (reference : dict) (centrality_bins values errors : ndarray)
          (trigger_info : dict).

Local Abbreviation init :=
  (__init__ cls name short_name collision_system collaboration
     reference centrality_bins values errors trigger_info).

(** C3.  When some parameter required by the class is absent from the
    keyword arguments, the constructor raises [ValueError] with the
    message naming the first absent parameter in the order of
    [required_params], and a save that would take the constructed
    entity is never reached: the run ends with that exception and no
    store. *)
Theorem init_missing_required_parameter (kwargs : gmap string value) :
  (exists q, q ∈ required_params cls /\ kwargs !! q = None) ->
  exists p,
    first_missing (required_params cls) kwargs = Some p
    /\ init kwargs
       = Raise (ValueError ("Missing required parameter: " ++ p ++ " for " ++ __name__ cls))
    /\ forall file,
         bind (init kwargs) (populate_database file)
         = Raise (ValueError ("Missing required parameter: " ++ p ++ " for " ++ __name__ cls)).
Proof.
  intros Hmissing. destruct (first_missing_exists _ _ Hmissing) as [p Hp].
  exists p. split; [done|].
  assert (init kwargs
          = Raise (ValueError ("Missing required parameter: " ++ p ++ " for " ++ __name__ cls)))
    as Hinit by (by apply set_required_missing).
  split; [done|]. intros file. by rewrite Hinit.
Qed.

(** C4, as the constructor behaves.  The constructor does not compare
    the lengths of [values], [errors] and [centrality_bins]: whenever
    every required parameter is supplied it returns an entity, and that
    entity holds the three sequences exactly as they were passed. *)
Theorem init_keeps_series_as_passed (kwargs : gmap string value) :
  (forall q, q ∈ required_params cls -> is_Some (kwargs !! q)) ->
  exists o,
    init kwargs = Return o
    /\ database.centrality_bins o = centrality_bins
    /\ database.values o = values
    /\ database.errors o = errors.
Proof.
  intros Hall. apply first_missing_None in Hall.
  destruct (set_required_complete _ _
              {| __class__ := cls; database.name := name;
                 database.short_name := short_name;
                 database.collision_system := collision_system;
                 database.collaboration := collaboration;
                 database.reference := reference;
                 database.centrality_bins := centrality_bins;
                 database.values := values; database.errors := errors;
                 database.trigger_info := trigger_info; params := ∅ |} Hall)
    as (o & Ho & _ & _ & _ & _ & _ & _ & Hb & Hv & He & _).
  by exists o.
Qed.

(** C9, as the constructor behaves.  A keyword argument whose name is
    not among the class's required parameters is ignored: the outcome
    of the constructor is the same with it and without it, and an
    entity built with it has no attribute of that name. *)
Theorem init_ignores_extra_keyword (kwargs : gmap string value) k v :
  k ∉ required_params cls ->
  init (<[k := v]> kwargs) = init kwargs
  /\ forall o, init (<[k := v]> kwargs) = Return o -> params o !! k = None.
Proof.
  intros Hk. split; [by apply set_required_extra|].
  intros o Ho. unfold __init__ in Ho.
  destruct (first_missing (required_params cls) (<[k := v]> kwargs)) as [p|] eqn:Hfm.
  - by rewrite (set_required_missing _ _ _ _ Hfm) in Ho.
  - destruct (set_required_complete _ _
                {| __class__ := cls; database.name := name;
                   database.short_name := short_name;
                   database.collision_system := collision_system;
                   database.collaboration := collaboration;
                   database.reference := reference;
                   database.centrality_bins := centrality_bins;
                   database.values := values; database.errors := errors;
                   database.trigger_info := trigger_info; params := ∅ |} Hfm)
      as (o' & Ho' & Hrest).
    rewrite Ho' in Ho. injection Ho as <-.
    destruct Hrest as (_ & _ & _ & _ & _ & _ & _ & _ & _ & _ & Hpar).
    rewrite Hpar. by rewrite bool_decide_eq_false_2.
Qed.

End Init.

End Construction.

(** [IntegratedVn2] built without [harmonic_n] fails, and the message
    names [harmonic_n]. *)
Lemma init_missing_required_parameter_witness :
  (exists q, q ∈ database.required_params database.IntegratedVn2
             /\ flow_kwargs_without_harmonic_n !! q = None)
  /\ database.__init__ database.IntegratedVn2
       "Elliptic flow coefficient v2{2}" "v22" "Pb-Pb-2760" "ALICE"
       [("arXiv", "arXiv:1105.3865")] database.ALICE_cent_bins
       (json.JList []) (json.JList [])
       [("Trigger", "TPC and VZERO detectors")]
       flow_kwargs_without_harmonic_n
     = Raise (ValueError "Missing required parameter: harmonic_n for IntegratedVn2").
Proof.
  assert (exists q, q ∈ database.required_params database.IntegratedVn2
                    /\ flow_kwargs_without_harmonic_n !! q = None) as Hmissing.
  { exists "harmonic_n". split; [apply list_elem_of_here|reflexivity]. }
  split; [exact Hmissing|].
  destruct (init_missing_required_parameter database.IntegratedVn2
              "Elliptic flow coefficient v2{2}" "v22" "Pb-Pb-2760" "ALICE"
              [("arXiv", "arXiv:1105.3865")] database.ALICE_cent_bins
              (json.JList []) (json.JList [])
              [("Trigger", "TPC and VZERO detectors")]
              flow_kwargs_without_harmonic_n Hmissing) as (p & Hp & Hinit & _).
  vm_compute in Hp. injection Hp as <-. exact Hinit.
Defined.

Lemma init_keeps_series_as_passed_witness :
  (forall q, q ∈ database.required_params database.Multiplicity ->
             is_Some (multiplicity_kwargs !! q))
  /\ exists o,
       database.__init__ database.Multiplicity
         "Charged-particle multiplicity" "dNch_deta" "Pb-Pb-2760" "ALICE"
         [("arXiv", "arxiv:1012.1657")] three_bins two_values one_error
         [("Trigger", "VZERO and SPD detectors")] multiplicity_kwargs = Return o
       /\ database.centrality_bins o = three_bins
       /\ database.values o = two_values
       /\ database.errors o = one_error.
Proof.
  assert (forall q, q ∈ database.required_params database.Multiplicity ->
                    is_Some (multiplicity_kwargs !! q)) as Hall.
  { intros q Hq. cbn [database.required_params] in Hq.
    repeat (apply elem_of_cons in Hq as [->|Hq]; [by eexists|]).
    by apply elem_of_nil in Hq. }
  split; [exact Hall|].
  exact (init_keeps_series_as_passed database.Multiplicity
           "Charged-particle multiplicity" "dNch_deta" "Pb-Pb-2760" "ALICE"
           [("arXiv", "arxiv:1012.1657")] three_bins two_values one_error
           [("Trigger", "VZERO and SPD detectors")] multiplicity_kwargs Hall).
Defined.

(** C4 as stated fails: the constructor returns an entity whose
    [values], [errors] and [centrality_bins] have three different
    lengths. *)
Lemma init_accepts_mismatched_lengths :
  exists o,
    database.__init__ database.Multiplicity
      "Charged-particle multiplicity" "dNch_deta" "Pb-Pb-2760" "ALICE"
      [("arXiv", "arxiv:1012.1657")] three_bins two_values one_error
      [("Trigger", "VZERO and SPD detectors")] multiplicity_kwargs = Return o
    /\ database.len (database.values o) = 2
    /\ database.len (database.errors o) = 1
    /\ database.len (database.centrality_bins o) = 3.
Proof. eexists. split; [reflexivity|]. by split_and!. Qed.

Lemma init_ignores_extra_keyword_witness :
  ("harmonic_n" ∉ database.required_params database.Multiplicity)
  /\ database.__init__ database.Multiplicity
       "Charged-particle multiplicity" "dNch_deta" "Pb-Pb-2760" "ALICE"
       [("arXiv", "arxiv:1012.1657")] three_bins two_values one_error
       [("Trigger", "VZERO and SPD detectors")]
       (<["harmonic_n" := Int 2]> multiplicity_kwargs)
     = database.__init__ database.Multiplicity
         "Charged-particle multiplicity" "dNch_deta" "Pb-Pb-2760" "ALICE"
         [("arXiv", "arxiv:1012.1657")] three_bins two_values one_error
         [("Trigger", "VZERO and SPD detectors")] multiplicity_kwargs.
Proof.
  assert ("harmonic_n" ∉ database.required_params database.Multiplicity) as Hk.
  { cbn [database.required_params]. rewrite !not_elem_of_cons. split_and!; try done.
    apply not_elem_of_nil. }
  split; [exact Hk|].
  exact (proj1 (init_ignores_extra_keyword database.Multiplicity
                  "Charged-particle multiplicity" "dNch_deta" "Pb-Pb-2760" "ALICE"
                  [("arXiv", "arxiv:1012.1657")] three_bins two_values one_error
                  [("Trigger", "VZERO and SPD detectors")]
                  multiplicity_kwargs "harmonic_n" (Int 2) Hk)).
Defined.

(** C9 as stated fails: a [Multiplicity] built with the extra keyword
    [harmonic_n] is returned, without an attribute of that name. *)
Lemma init_accepts_extra_keyword :
  exists o,
    database.__init__ database.Multiplicity
      "Charged-particle multiplicity" "dNch_deta" "Pb-Pb-2760" "ALICE"
      [("arXiv", "arxiv:1012.1657")] database.ALICE_cent_bins
      (json.JList (map json.JInt [1601; 1294; 966; 649; 426; 261; 149; 76; 35]))
      (json.JList (map json.JInt [60; 49; 37; 23; 15; 9; 6; 4; 2]))
      [("Trigger", "VZERO and SPD detectors")]
      multiplicity_kwargs_and_harmonic_n = Return o
    /\ multiplicity_kwargs_and_harmonic_n !! "harmonic_n" = Some (Int 2)
    /\ database.params o !! "harmonic_n" = None.
Proof. eexists. split; [reflexivity|]. by split_and!. Qed.

(** ** The store *)

Section Store.

Import sqlite3.
Local Open Scope list_scope.

Lemma foldr_max_ge (i : Z) rest x : x ∈ i :: rest -> x <= foldr Z.max i rest.
Proof.
  induction rest as [|j rest IH]; cbn [foldr].
  - intros ->%list_elem_of_singleton. lia.
  - rewrite !elem_of_cons. intros [->|[->|Hx]]; [|lia|].
    + specialize (IH ltac:(by apply elem_of_cons; left)). lia.
    + specialize (IH ltac:(by apply elem_of_cons; right)). lia.
Qed.

(** A new rowid is above every rowid in use. *)
Lemma next_rowid_above ids x : x ∈ ids -> x < next_rowid ids.
Proof.
  destruct ids as [|i rest]; [by intros ?%elem_of_nil|].
  intros Hx%foldr_max_ge. cbn [next_rowid]. lia.
Qed.

Lemma next_rowid_fresh ids : next_rowid ids ∉ ids.
Proof. intros H%next_rowid_above. lia. Qed.

Lemma select_id_app name t1 t2 :
  select_id name (t1 ++ t2) = (select_id name t1 ++ select_id name t2)%list.
Proof. unfold select_id. by rewrite filter_app, map_app. Qed.

Lemma select_id_singleton name i : select_id name [(i, name)] = [i].
Proof.
  unfold select_id. rewrite filter_cons_True by done. by rewrite filter_nil.
Qed.

Lemma select_id_nil name t : name ∉ map snd t -> select_id name t = [].
Proof.
  intros Hname. unfold select_id.
  rewrite (elem_of_nil_inv (filter (fun r => snd r = name) t)); [done|].
  intros r [Hr Hin]%list_elem_of_filter. apply Hname.
  apply list_elem_of_fmap. by exists r.
Qed.

Lemma select_id_head name t i rest : select_id name t = i :: rest -> (i, name) ∈ t.
Proof.
  intros Hsel. assert (i ∈ select_id name t) as Hi by (rewrite Hsel; apply list_elem_of_here).
  unfold select_id in Hi. apply list_elem_of_fmap in Hi as ([j nm] & -> & Hr).
  apply list_elem_of_filter in Hr as [Hname Hr]. cbn in Hname. by subst nm.
Qed.

(** What the [SELECT] after the [INSERT] fetches. *)
Lemma fetchone_after_insert name t :
  fetchone (select_id name (insert_name name t)) = Some (resolved_id name t).
Proof.
  unfold insert_name, resolved_id, fetchone.
  rewrite select_id_app, select_id_singleton.
  by destruct (select_id name t).
Qed.

(** The nested function always returns: the [SELECT] finds the row just
    inserted, or an older one of the same name. *)
Lemma insert_integrated_observable_data_returns d obs :
  database.insert_integrated_observable_data d obs
  = Return
      {| systems := systems d;
         collaborations := collaborations d;
         observables := insert_name (database.short_name obs) (observables d);
         experimental_results := (experimental_results d ++ [fact_row d obs])%list |}.
Proof.
  unfold database.insert_integrated_observable_data.
  cbn [with_observables observables experimental_results].
  by rewrite fetchone_after_insert.
Qed.

Lemma populate_database_prepared file obs :
  database.populate_database file obs
  = database.insert_integrated_observable_data (prepared file) obs.
Proof. reflexivity. Qed.

Lemma populate_database_returns file obs :
  database.populate_database file obs
  = Return
      {| systems := systems (prepared file);
         collaborations := collaborations (prepared file);
         observables := insert_name (database.short_name obs) (observables (prepared file));
         experimental_results :=
           (experimental_results (prepared file) ++ [fact_row (prepared file) obs])%list |}.
Proof. by rewrite populate_database_prepared, insert_integrated_observable_data_returns. Qed.

Lemma prepared_observables file :
  observables (prepared file) = observables (default empty file).
Proof. reflexivity. Qed.

Lemma prepared_experimental_results file :
  experimental_results (prepared file) = experimental_results (default empty file).
Proof. reflexivity. Qed.

End Store.

(** ** The query *)

Section Query.

Import sqlite3 query_and_plot.
Local Open Scope list_scope.

(** The [observables] rows that the join pairs with a fact row. *)
Local Abbreviation partners d name r :=
  (filter (fun o : Z * string => fst o = observable_id r /\ snd o = name) (observables d)).

Lemma partners_nil d name r : ¬ joins d name r -> partners d name r = [].
Proof.
  intros Hno. apply elem_of_nil_inv. intros o [[Hid Hname] Hin]%list_elem_of_filter.
  apply Hno. by exists o.
Qed.

Lemma partners_cons d name r :
  joins d name r -> exists o rest, partners d name r = o :: rest.
Proof.
  intros (o & Hin & Hid & Hname).
  destruct (partners d name r) as [|o' rest] eqn:Hp; [|by eauto].
  assert (o ∈ partners d name r) as Ho by (by apply list_elem_of_filter).
  rewrite Hp in Ho. by apply elem_of_nil in Ho.
Qed.

Lemma execute_unfold d name :
  execute d name
  = flat_map (fun r => map (fun _ => selected r) (partners d name r)) (experimental_results d).
Proof. reflexivity. Qed.

Lemma flat_map_nil {A B} (f : A -> list B) l :
  Forall (fun x => f x = []) l -> flat_map f l = [].
Proof. induction 1 as [|x l Hx _ IH]; [done|]. cbn [flat_map]. by rewrite Hx, IH. Qed.

(** The join is empty exactly when no fact row is in it. *)
Lemma execute_nil d name :
  execute d name = [] <-> forall r, r ∈ experimental_results d -> ¬ joins d name r.
Proof.
  rewrite execute_unfold. split.
  - intros Hnil r Hr Hjoin.
    apply list_elem_of_In, in_split in Hr as (pre & post & Hsplit).
    rewrite Hsplit, flat_map_app in Hnil. cbn [flat_map] in Hnil.
    destruct (partners_cons _ _ _ Hjoin) as (o & rest & Hp). rewrite Hp in Hnil.
    by destruct (flat_map _ pre).
  - intros Hno. apply flat_map_nil, Forall_forall. intros r Hr.
    by rewrite partners_nil by (by apply Hno).
Qed.

(** The first row of the join comes from the first fact row in it. *)
Lemma execute_first d name pre r post :
  experimental_results d = pre ++ r :: post ->
  Forall (fun r' => ¬ joins d name r') pre ->
  joins d name r ->
  fetchone (execute d name) = Some (selected r).
Proof.
  intros Hsplit Hpre Hjoin. rewrite execute_unfold, Hsplit, flat_map_app.
  rewrite flat_map_nil.
  - cbn [flat_map app]. destruct (partners_cons _ _ _ Hjoin) as (o & rest & ->). done.
  - eapply Forall_impl; [exact Hpre|]. intros r' Hr'. cbn beta. by rewrite partners_nil.
Qed.

Lemma json_not_global : load_global "json" = Raise (NameError "name 'json' is not defined").
Proof. reflexivity. Qed.

Lemma np_global : load_global "np" = Return tt.
Proof. reflexivity. Qed.

(** Once a row is fetched, the call [np.array(json.loads(...))] evaluates
    [np] and then [json], before anything is decoded. *)
Lemma query_observables_fetched d name r0 :
  fetchone (execute d name) = Some r0 ->
  query_observables (Some d) name = Raise (NameError "name 'json' is not defined").
Proof.
  intros Hfetch. unfold query_observables. rewrite Hfetch.
  destruct r0 as [[[b v] e] ref]. by rewrite np_global, json_not_global.
Qed.

(** C7, as the query behaves.  When several fact rows share the queried
    short name, the query works on one row only: the first fact row, in
    rowid order, that the join pairs with an [observables] row of that
    name.  It takes no collision system, collaboration or reference to
    tell the rows apart; the rows after the first play no part, so any
    store whose first match is the same row gives the same outcome. *)
Theorem query_fetches_first_match d name pre r post :
  experimental_results d = pre ++ r :: post ->
  Forall (fun r' => ¬ joins d name r') pre ->
  joins d name r ->
  fetchone (execute d name) = Some (selected r)
  /\ forall d', fetchone (execute d' name) = Some (selected r) ->
                query_observables (Some d') name = query_observables (Some d) name.
Proof.
  intros Hsplit Hpre Hjoin.
  pose proof (execute_first _ _ _ _ _ Hsplit Hpre Hjoin) as Hfirst.
  split; [done|]. intros d' Hd'. unfold query_observables. by rewrite Hd', Hfirst.
Qed.

(** C8, as the query behaves.  On a file that has the tables, for a
    name that no fact row carries, [query_observables] raises the
    [ValueError] with the message [No data found for observable: name],
    which is no storage error, and the [try] statement around the call
    catches it, prints the message and ends normally. *)
Theorem query_not_found d name :
  (forall r, r ∈ experimental_results d -> ¬ joins d name r) ->
  query_observables (Some d) name
  = Raise (ValueError ("No data found for observable: " ++ name)%string)
  /\ try_except (Some d) name
     = ([Print ("No data found for observable: " ++ name)%string], Return tt).
Proof.
  intros Hno%execute_nil.
  assert (query_observables (Some d) name
          = Raise (ValueError ("No data found for observable: " ++ name)%string)) as Hq.
  { unfold query_observables. by rewrite Hno. }
  split; [done|]. unfold try_except. by rewrite Hq.
Qed.

(** C10.  For a name that some fact row carries, [query_observables]
    raises [NameError]: the name [json] is evaluated before any decoding
    and the module binds no such name.  The [try] statement does not
    catch it.  So the call can end otherwise only when no row matches. *)
Theorem query_found_raises_NameError d name :
  (exists r, r ∈ experimental_results d /\ joins d name r) ->
  query_observables (Some d) name = Raise (NameError "name 'json' is not defined")
  /\ try_except (Some d) name = ([], Raise (NameError "name 'json' is not defined")).
Proof.
  intros (r & Hr & Hjoin).
  assert (query_observables (Some d) name = Raise (NameError "name 'json' is not defined")) as Hq.
  { destruct (fetchone (execute d name)) as [r0|] eqn:Hfetch.
    - by eapply query_observables_fetched.
    - exfalso. unfold fetchone in Hfetch. apply head_None in Hfetch.
      by eapply execute_nil in Hfetch. }
  split; [done|]. unfold try_except. by rewrite Hq.
Qed.

End Query.

(** ** Saving *)

Section Save.

Import sqlite3 query_and_plot.
Local Open Scope list_scope.

(** [INSERT OR IGNORE] with the key taken changes nothing, so the
    default rows are inserted once however often the script runs. *)
Lemma insert_or_ignore_place id name t :
  existsb (fun r => (fst r =? id)%Z) (place (id, name) t) = true.
Proof.
  induction t as [|r t IH]; cbn [place].
  - cbn. by rewrite Z.eqb_refl.
  - destruct (fst (id, name) <? fst r)%Z; cbn [existsb fst].
    + by rewrite Z.eqb_refl.
    + by rewrite IH, orb_true_r.
Qed.

Lemma insert_or_ignore_idempotent id name name' t :
  insert_or_ignore id name' (insert_or_ignore id name t) = insert_or_ignore id name t.
Proof.
  unfold insert_or_ignore.
  destruct (existsb (fun r => (fst r =? id)%Z) t) eqn:Hex.
  - by rewrite Hex.
  - by rewrite insert_or_ignore_place.
Qed.

(** A second lookup of the same name finds the same id. *)
Lemma resolved_id_insert_name name t :
  resolved_id name (insert_name name t) = resolved_id name t.
Proof.
  unfold resolved_id at 1. unfold insert_name.
  rewrite select_id_app, select_id_singleton. unfold resolved_id.
  by destruct (select_id name t).
Qed.

(** Every save writes the ids of the two default rows. *)
Lemma save_writes_default_ids d obs :
  system_id (fact_row d obs) = 1 /\ collaboration_id (fact_row d obs) = 1.
Proof. done. Qed.

(** The insert into [observables] is unconditional. *)
Lemma populate_database_adds_observable_row file obs :
  exists d,
    database.populate_database file obs = Return d
    /\ observables d
       = observables (default empty file)
         ++ [(next_rowid (map fst (observables (default empty file))),
              database.short_name obs)].
Proof. eexists. split; [apply populate_database_returns|done]. Qed.

(** A save reads five attributes of the entity and no other. *)
Lemma fact_row_setattr d obs k v : fact_row d (database.setattr obs k v) = fact_row d obs.
Proof. reflexivity. Qed.

Lemma populate_database_setattr file obs k v :
  database.populate_database file (database.setattr obs k v)
  = database.populate_database file obs.
Proof. by rewrite !populate_database_returns, fact_row_setattr. Qed.

Lemma resolved_id_in name t :
  resolved_id name t ∈ map fst (insert_name name t).
Proof.
  unfold resolved_id, insert_name. rewrite map_app. apply elem_of_app.
  destruct (select_id name t) as [|i ids] eqn:Hsel.
  - right. cbn. apply list_elem_of_here.
  - left. assert (i ∈ select_id name t) as Hi by (rewrite Hsel; apply list_elem_of_here).
    unfold select_id in Hi. apply list_elem_of_fmap in Hi as (r & -> & Hr).
    apply list_elem_of_filter in Hr as [_ Hr]. apply list_elem_of_fmap. by exists r.
Qed.

(** Saving keeps every fact row pointing to a row of [observables]. *)
Lemma save_references_resolve d obs d' :
  references_resolve d ->
  database.insert_integrated_observable_data d obs = Return d' ->
  references_resolve d'.
Proof.
  intros Hd. rewrite insert_integrated_observable_data_returns. intros [= <-].
  intros r. cbn [experimental_results observables].
  intros [Hr| ->%list_elem_of_singleton]%elem_of_app.
  - unfold insert_name. rewrite map_app. apply elem_of_app. left. by apply Hd.
  - apply resolved_id_in.
Qed.

Lemma prepared_references_resolve file :
  references_resolve (default empty file) -> references_resolve (prepared file).
Proof. done. Qed.

Lemma empty_references_resolve : references_resolve empty.
Proof. intros r Hr. by apply elem_of_nil in Hr. Qed.

(** After a save of a short name new to the store, the join for that
    name is the saved row alone. *)
Lemma execute_after_save d obs d' :
  references_resolve d ->
  database.short_name obs ∉ map snd (observables d) ->
  database.insert_integrated_observable_data d obs = Return d' ->
  execute d' (database.short_name obs) = [selected (fact_row d obs)].
Proof.
  intros Hd Hnew. rewrite insert_integrated_observable_data_returns. intros [= <-].
  set (nid := next_rowid (map fst (observables d))).
  assert (resolved_id (database.short_name obs) (observables d) = nid) as Hid.
  { unfold resolved_id. by rewrite select_id_nil. }
  unfold execute. cbn [experimental_results observables]. unfold insert_name. fold nid.
  rewrite flat_map_app. cbn [flat_map]. rewrite app_nil_r.
  rewrite flat_map_nil.
  - cbn [app]. rewrite filter_app.
    rewrite (elem_of_nil_inv (filter _ (observables d))).
    + cbn [app]. rewrite filter_cons_True; [by rewrite filter_nil|].
      cbn [fst snd fact_row observable_id]. by rewrite Hid.
    + intros o [[_ Hname] Hin]%list_elem_of_filter. apply Hnew.
      apply list_elem_of_fmap. by exists o.
  - apply Forall_forall. intros r Hr. rewrite filter_app.
    rewrite (elem_of_nil_inv (filter _ (observables d))).
    + rewrite filter_cons_False; [by rewrite filter_nil|].
      cbn [fst snd]. intros [Hnid _]. apply (next_rowid_fresh (map fst (observables d))).
      fold nid. rewrite Hnid. by apply Hd.
    + intros o [[_ Hname] Hin]%list_elem_of_filter. apply Hnew.
      apply list_elem_of_fmap. by exists o.
Qed.

Lemma populate_all_app file l1 l2 :
  populate_all file (l1 ++ l2)
  = bind (populate_all file l1) (fun f => populate_all f l2).
Proof.
  revert file. induction l1 as [|o l1 IH]; intros file; [done|].
  cbn [app populate_all]. rewrite populate_database_returns. cbn [bind]. apply IH.
Qed.

(** Whatever was saved before, the store keeps its references resolved
    and holds no observable name other than the short names saved. *)
Lemma populate_all_invariant history :
  forall file known,
    references_resolve (default empty file) ->
    (forall n, n ∈ map snd (observables (default empty file)) -> n ∈ known) ->
    exists file',
      populate_all file history = Return file'
      /\ references_resolve (default empty file')
      /\ forall n, n ∈ map snd (observables (default empty file')) ->
                   n ∈ known ++ map database.short_name history.
Proof.
  induction history as [|o history IH]; intros file known Href Hnames.
  - exists file. split_and!; [done|done|]. intros n Hn. rewrite app_nil_r. by apply Hnames.
  - cbn [populate_all].
    destruct (database.populate_database file o) as [d|e] eqn:Hsave;
      [|by rewrite populate_database_returns in Hsave].
    cbn [bind].
    destruct (IH (Some d) (known ++ [database.short_name o])) as (file' & Hall & Href' & Hnames').
    + cbn [default]. rewrite populate_database_prepared in Hsave.
      eapply save_references_resolve; [|exact Hsave]. by apply prepared_references_resolve.
    + rewrite populate_database_returns in Hsave. injection Hsave as <-.
      change (observables (default empty (Some ?x))) with (observables x).
      cbn [observables]. unfold insert_name. rewrite map_app. intros n.
      rewrite !elem_of_app. intros [Hn|Hn]; [left; by apply Hnames|by right].
    + exists file'. split_and!; [done|done|]. intros n Hn.
      specialize (Hnames' n Hn). by rewrite <- app_assoc in Hnames'.
Qed.

(** C1, as save and query behave.  Take any earlier saves and an entity
    whose short name none of them used.  After its save, the row that the
    query fetches for that short name holds the JSON texts of the
    entity's centrality bins, values and errors and the text of its
    reference; [json.loads] gives back from each JSON text the exact
    sequence of ints and floats that was saved.  The keyword parameters
    are not stored: the store is the same whatever they are. *)
Theorem saved_row_is_fetched_and_decodes history obs :
  database.short_name obs ∉ map database.short_name history ->
  exists d,
    populate_all None (history ++ [obs]) = Return (Some d)
    /\ fetchone (execute d (database.short_name obs))
       = Some (json.dumps (database.centrality_bins obs),
               json.dumps (database.values obs),
               json.dumps (database.errors obs),
               str_dict (database.reference obs))
    /\ json.loads (json.dumps (database.centrality_bins obs))
       = Return (database.centrality_bins obs)
    /\ json.loads (json.dumps (database.values obs)) = Return (database.values obs)
    /\ json.loads (json.dumps (database.errors obs)) = Return (database.errors obs)
    /\ forall k v,
         populate_all None (history ++ [database.setattr obs k v])
         = populate_all None (history ++ [obs]).
Proof.
  intros Hnew.
  destruct (populate_all_invariant history None [] empty_references_resolve)
    as (file & Hall & Href & Hnames).
  { intros n Hn. by apply elem_of_nil in Hn. }
  cbn [app] in Hnames.
  destruct (database.populate_database file obs) as [d|e] eqn:Hsave;
    [|by rewrite populate_database_returns in Hsave].
  exists d. split_and!.
  - rewrite populate_all_app, Hall. cbn [bind populate_all]. by rewrite Hsave.
  - rewrite populate_database_prepared in Hsave.
    erewrite execute_after_save; [done| | |exact Hsave].
    + by apply prepared_references_resolve.
    + rewrite prepared_observables. intros Hin. by apply Hnew, Hnames.
  - apply loads_dumps.
  - apply loads_dumps.
  - apply loads_dumps.
  - intros k v. rewrite !populate_all_app, Hall. cbn [bind populate_all].
    by rewrite populate_database_setattr.
Qed.

Lemma insert_or_ignore_has id name t : id ∈ map fst (insert_or_ignore id name t).
Proof.
  assert (existsb (fun r => (fst r =? id)%Z) (insert_or_ignore id name t) = true) as Hex.
  { unfold insert_or_ignore.
    destruct (existsb (fun r => (fst r =? id)%Z) t) eqn:Hex; [done|].
    apply insert_or_ignore_place. }
  apply existsb_exists in Hex as (r & Hin & Heq%Z.eqb_eq).
  apply list_elem_of_fmap. exists r. split; [done|by apply list_elem_of_In].
Qed.

(** The row that the name lookup resolves to is in the table. *)
Lemma resolved_id_row name t : (resolved_id name t, name) ∈ insert_name name t.
Proof.
  unfold resolved_id, insert_name. apply elem_of_app.
  destruct (select_id name t) as [|i ids] eqn:Hsel.
  - right. apply list_elem_of_here.
  - left. by eapply select_id_head.
Qed.

(** C6, as save behaves.  On a store whose rowids leave room for one
    more row, a save appends exactly one fact row.  Its [result_id] is
    the next rowid of the table; its [system_id] and [collaboration_id]
    are ids of rows of [systems] and [collaborations]; its
    [observable_id] is the id of a row of [observables] that carries the
    entity's short name, the one that the name lookup gives.  Its text
    columns are the JSON texts of the centrality bins, values and
    errors, each of which [json.loads] reads back to the saved sequence
    of ints and floats, and the text of the reference.  The keyword
    parameters of the entity are not in the row: changing them changes
    nothing in the store. *)
Theorem save_appends_one_fact_row file obs :
  room_for 1 (map fst (observables (default empty file))) ->
  room_for 1 (map result_id (experimental_results (default empty file))) ->
  exists d r,
    database.populate_database file obs = Return d
    /\ experimental_results d = experimental_results (default empty file) ++ [r]
    /\ result_id r = next_rowid (map result_id (experimental_results (default empty file)))
    /\ system_id r ∈ map fst (systems d)
    /\ collaboration_id r ∈ map fst (collaborations d)
    /\ (observable_id r, database.short_name obs) ∈ observables d
    /\ fetchone (select_id (database.short_name obs) (observables d)) = Some (observable_id r)
    /\ centrality_bins r = json.dumps (database.centrality_bins obs)
    /\ value r = json.dumps (database.values obs)
    /\ error r = json.dumps (database.errors obs)
    /\ reference r = str_dict (database.reference obs)
    /\ json.loads (centrality_bins r) = Return (database.centrality_bins obs)
    /\ json.loads (value r) = Return (database.values obs)
    /\ json.loads (error r) = Return (database.errors obs)
    /\ forall k v,
         database.populate_database file (database.setattr obs k v)
         = database.populate_database file obs.
Proof.
  intros _ _. eexists _, (fact_row (prepared file) obs).
  split; [apply populate_database_returns|].
  cbn [experimental_results observables systems collaborations fact_row result_id
       system_id collaboration_id observable_id centrality_bins value error reference].
  split_and!; [done|done| | | | |done|done|done|done| | | |].
  - apply insert_or_ignore_has.
  - apply insert_or_ignore_has.
  - apply resolved_id_row.
  - apply fetchone_after_insert.
  - apply loads_dumps.
  - apply loads_dumps.
  - apply loads_dumps.
  - apply populate_database_setattr.
Qed.

End Save.

(** ** The examples *)

(** The [database_schema] dictionary describes a [trigger_info] column
    that the [CREATE TABLE] statement does not create. *)
Lemma trigger_info_described_not_created :
  "trigger_info" ∈ database.database_schema_experimental_results
  /\ "trigger_info" ∉ database.experimental_results_columns.
Proof.
  split.
  - unfold database.database_schema_experimental_results.
    apply list_elem_of_In. cbn. tauto.
  - unfold database.experimental_results_columns.
    rewrite !not_elem_of_cons. split_and!; try done. apply not_elem_of_nil.
Qed.

Lemma alice_ch_mult_returns : database.alice_ch_mult = Return alice_entity.
Proof. reflexivity. Qed.

(** C1 as stated fails: two entities that differ in a kind-specific
    parameter leave the same store, so whatever reads the store back by
    the short name gives the same for the two, and that is an entity
    equal to at most one of them. *)
Lemma entity_is_not_recovered_from_the_store :
  database.params alice_entity !! "particle_type" = Some (Str "charged")
  /\ database.params alice_entity_identified !! "particle_type" = Some (Str "pion")
  /\ database.populate_database None alice_entity_identified
     = database.populate_database None alice_entity
  /\ query_and_plot.query_observables (Some (store_after [alice_entity_identified])) "dNch_deta"
     = query_and_plot.query_observables (Some (store_after [alice_entity])) "dNch_deta"
  /\ forall load : sqlite3.db -> string -> result database.instance,
       ¬ (load (store_after [alice_entity]) "dNch_deta" = Return alice_entity
          /\ load (store_after [alice_entity_identified]) "dNch_deta"
             = Return alice_entity_identified).
Proof.
  assert (store_after [alice_entity_identified] = store_after [alice_entity]) as Hsame
    by reflexivity.
  split_and!; [reflexivity|reflexivity|reflexivity|by rewrite Hsame|].
  intros load [Hfirst Hsecond]. rewrite Hsame, Hfirst in Hsecond.
  apply (f_equal (fun r => match r with
                           | Return o => database.params o !! "particle_type"
                           | Raise _ => None
                           end)) in Hsecond.
  vm_compute in Hsecond. discriminate.
Qed.

(** The texts that a save writes for the floats of an entity, and what
    [json.loads] reads from them. *)
Lemma floats_are_written_and_read :
  json.dumps (database.values mean_pT_entity) = "[0.517, 0.503, 0.4876]"
  /\ json.dumps (database.errors mean_pT_entity) = "[0.019, 0.0185, 0.02]"
  /\ json.loads "[0.517, 0.503, 0.4876]" = Return (database.values mean_pT_entity)
  /\ json.loads "[0.019, 0.0185, 0.02]" = Return (database.errors mean_pT_entity).
Proof. by split_and!. Qed.

Lemma saved_row_is_fetched_and_decodes_witness :
  (database.short_name mean_pT_entity ∉ map database.short_name [star_entity])
  /\ exists d,
       populate_all None ([star_entity] ++ [mean_pT_entity])%list = Return (Some d)
       /\ sqlite3.fetchone (query_and_plot.execute d (database.short_name mean_pT_entity))
          = Some (json.dumps (database.centrality_bins mean_pT_entity),
                  json.dumps (database.values mean_pT_entity),
                  json.dumps (database.errors mean_pT_entity),
                  str_dict (database.reference mean_pT_entity))
       /\ json.loads (json.dumps (database.centrality_bins mean_pT_entity))
          = Return (database.centrality_bins mean_pT_entity)
       /\ json.loads (json.dumps (database.values mean_pT_entity))
          = Return (database.values mean_pT_entity)
       /\ json.loads (json.dumps (database.errors mean_pT_entity))
          = Return (database.errors mean_pT_entity)
       /\ forall k v,
            populate_all None ([star_entity] ++ [database.setattr mean_pT_entity k v])%list
            = populate_all None ([star_entity] ++ [mean_pT_entity])%list.
Proof.
  assert (database.short_name mean_pT_entity ∉ map database.short_name [star_entity]) as Hnew.
  { cbn. rewrite not_elem_of_cons. split; [done|apply not_elem_of_nil]. }
  split; [exact Hnew|].
  exact (saved_row_is_fetched_and_decodes [star_entity] mean_pT_entity Hnew).
Defined.

(** C2 at a failing input: the script run twice with the same entity
    leaves two [observables] rows of the one name, both fact rows
    pointing to the first, next to one row each in [systems] and
    [collaborations]. *)
Lemma same_name_saved_twice_gives_two_observable_rows :
  populate_all None [alice_entity; alice_entity]
  = Return (Some (store_after [alice_entity; alice_entity]))
  /\ sqlite3.observables (store_after [alice_entity; alice_entity])
     = [(1, "dNch_deta"); (2, "dNch_deta")]
  /\ map sqlite3.observable_id
         (sqlite3.experimental_results (store_after [alice_entity; alice_entity]))
     = [1; 1]
  /\ sqlite3.systems (store_after [alice_entity; alice_entity]) = [(1, "Pb-Pb-2760")]
  /\ sqlite3.collaborations (store_after [alice_entity; alice_entity]) = [(1, "ALICE")].
Proof. by split_and!. Qed.

(** C5 at a failing input: an entity of STAR for Au-Au is saved under
    [system_id] 1 and [collaboration_id] 1, the rows of Pb-Pb-2760 and
    ALICE; no row is made for its own system or collaboration. *)
Lemma star_entity_saved_under_default_ids :
  database.collision_system star_entity = "Au-Au-200"
  /\ database.collaboration star_entity = "STAR"
  /\ database.populate_database None star_entity = Return (store_after [star_entity])
  /\ map (fun r => (sqlite3.system_id r, sqlite3.collaboration_id r))
         (sqlite3.experimental_results (store_after [star_entity]))
     = [(1, 1)]
  /\ sqlite3.systems (store_after [star_entity]) = [(1, "Pb-Pb-2760")]
  /\ sqlite3.collaborations (store_after [star_entity]) = [(1, "ALICE")].
Proof. by split_and!. Qed.

(** C6 as stated fails: two entities that differ in a keyword parameter
    and in the trigger description leave the same store, so the fact row
    holds neither. *)
Lemma fact_row_omits_parameters_and_trigger :
  database.params alice_entity !! "particle_type" = Some (Str "charged")
  /\ database.params alice_entity_pions !! "particle_type" = Some (Str "pion")
  /\ database.trigger_info alice_entity <> database.trigger_info alice_entity_pions
  /\ database.populate_database None alice_entity
     = database.populate_database None alice_entity_pions.
Proof. by split_and!. Qed.

Lemma save_appends_one_fact_row_witness :
  room_for 1 (map fst (sqlite3.observables
                         (default sqlite3.empty (Some (store_after [alice_entity])))))
  /\ room_for 1 (map sqlite3.result_id
                     (sqlite3.experimental_results
                        (default sqlite3.empty (Some (store_after [alice_entity])))))
  /\ exists d r,
       database.populate_database (Some (store_after [alice_entity])) mean_pT_entity
       = Return d
       /\ sqlite3.experimental_results d
          = (sqlite3.experimental_results
               (default sqlite3.empty (Some (store_after [alice_entity]))) ++ [r])%list
       /\ sqlite3.result_id r = 2
       /\ (sqlite3.observable_id r, "mean_pT_pion") ∈ sqlite3.observables d
       /\ sqlite3.value r = "[0.517, 0.503, 0.4876]"
       /\ json.loads (sqlite3.value r) = Return (database.values mean_pT_entity).
Proof.
  assert (room_for 1 (map fst (sqlite3.observables
                                 (default sqlite3.empty (Some (store_after [alice_entity]))))))
    as Hobs.
  { intros i Hi.
    change (map fst (sqlite3.observables
                       (default sqlite3.empty (Some (store_after [alice_entity])))))
      with [1] in Hi.
    apply list_elem_of_singleton in Hi as ->. by vm_compute. }
  assert (room_for 1 (map sqlite3.result_id
                          (sqlite3.experimental_results
                             (default sqlite3.empty (Some (store_after [alice_entity]))))))
    as Hres.
  { intros i Hi.
    change (map sqlite3.result_id
              (sqlite3.experimental_results
                 (default sqlite3.empty (Some (store_after [alice_entity])))))
      with [1] in Hi.
    apply list_elem_of_singleton in Hi as ->. by vm_compute. }
  split; [exact Hobs|]. split; [exact Hres|].
  destruct (save_appends_one_fact_row (Some (store_after [alice_entity])) mean_pT_entity
              Hobs Hres)
    as (d & r & Hsave & Hrows & Hid & _ & _ & Hrow & _ & _ & Hvalue & _ & _ & _ & Hloads & _).
  exists d, r. split; [exact Hsave|]. split; [exact Hrows|]. split; [exact Hid|].
  split; [exact Hrow|]. split; [exact Hvalue|]. exact Hloads.
Defined.

(** C7 as stated fails: with two fact rows for [v22] the join has two
    different rows, the query fetches the first of them, and its outcome
    is neither the two rows nor a choice made from a collision system,
    collaboration and reference. *)
Lemma query_keeps_the_first_of_two_matches :
  query_and_plot.execute (store_after [v22_first; v22_second]) "v22"
  = [("[[0, 5], [5, 10], [10, 20]]", "[3, 5, 7]", "[1, 1, 1]",
      str_dict [("arXiv", "arXiv:1105.3865")]);
     ("[[0, 5], [5, 10], [10, 20]]", "[4, 6, 8]", "[2, 2, 2]",
      str_dict [("arXiv", "arXiv:1203.3087")])]
  /\ sqlite3.fetchone (query_and_plot.execute (store_after [v22_first; v22_second]) "v22")
     = Some ("[[0, 5], [5, 10], [10, 20]]", "[3, 5, 7]", "[1, 1, 1]",
             str_dict [("arXiv", "arXiv:1105.3865")])
  /\ query_and_plot.query_observables (Some (store_after [v22_first; v22_second])) "v22"
     = query_and_plot.query_observables (Some (store_after [v22_first])) "v22".
Proof. by split_and!. Qed.

Lemma query_fetches_first_match_witness :
  sqlite3.experimental_results (store_after [v22_first; v22_second])
  = ([] ++ fact_row (prepared None) v22_first
        :: [fact_row (prepared (Some (store_after [v22_first]))) v22_second])%list
  /\ Forall (fun r' => ¬ joins (store_after [v22_first; v22_second]) "v22" r') []
  /\ joins (store_after [v22_first; v22_second]) "v22" (fact_row (prepared None) v22_first)
  /\ sqlite3.fetchone (query_and_plot.execute (store_after [v22_first; v22_second]) "v22")
     = Some (selected (fact_row (prepared None) v22_first))
  /\ forall d',
       sqlite3.fetchone (query_and_plot.execute d' "v22")
       = Some (selected (fact_row (prepared None) v22_first)) ->
       query_and_plot.query_observables (Some d') "v22"
       = query_and_plot.query_observables (Some (store_after [v22_first; v22_second])) "v22".
Proof.
  assert (sqlite3.experimental_results (store_after [v22_first; v22_second])
          = ([] ++ fact_row (prepared None) v22_first
                :: [fact_row (prepared (Some (store_after [v22_first]))) v22_second])%list)
    as Hrows by reflexivity.
  assert (joins (store_after [v22_first; v22_second]) "v22" (fact_row (prepared None) v22_first))
    as Hjoin.
  { exists (1, "v22"). split_and!; [|reflexivity|reflexivity].
    change (sqlite3.observables (store_after [v22_first; v22_second]))
      with [(1, "v22"); (2, "v22")].
    apply list_elem_of_here. }
  split; [exact Hrows|]. split; [exact (Forall_nil_2 _)|]. split; [exact Hjoin|].
  exact (query_fetches_first_match _ "v22" _ _ _ Hrows (Forall_nil_2 _) Hjoin).
Defined.

(** C8 as stated fails: on the file that [sqlite3.connect] creates no
    fact row carries the name, and the query raises
    [sqlite3.OperationalError], an error of the storage layer and no
    [ValueError].  The [try] statement does not catch it: the run ends
    with it, nothing printed and the connection not closed. *)
Lemma query_on_a_new_file_raises_OperationalError :
  query_and_plot.query_observables None "mean_pT_pion"
  = Raise (OperationalError "no such table: experimental_results")
  /\ isinstance_ValueError (OperationalError "no such table: experimental_results") = false
  /\ query_and_plot.try_except None "mean_pT_pion"
     = ([], Raise (OperationalError "no such table: experimental_results"))
  /\ query_and_plot.main None
     = ([], Raise (OperationalError "no such table: experimental_results")).
Proof. by split_and!. Qed.

Lemma query_not_found_witness :
  (forall r, r ∈ sqlite3.experimental_results (store_after [alice_entity]) ->
             ¬ joins (store_after [alice_entity]) "mean_pT_pion" r)
  /\ query_and_plot.query_observables (Some (store_after [alice_entity])) "mean_pT_pion"
     = Raise (ValueError "No data found for observable: mean_pT_pion")
  /\ query_and_plot.try_except (Some (store_after [alice_entity])) "mean_pT_pion"
     = ([query_and_plot.Print "No data found for observable: mean_pT_pion"], Return tt).
Proof.
  assert (forall r, r ∈ sqlite3.experimental_results (store_after [alice_entity]) ->
                    ¬ joins (store_after [alice_entity]) "mean_pT_pion" r) as Hno.
  { apply execute_nil. reflexivity. }
  split; [exact Hno|].
  exact (query_not_found (store_after [alice_entity]) "mean_pT_pion" Hno).
Defined.

(** The [__main__] block on a store without [mean_pT_pion] prints the
    message, closes the connection and ends normally. *)
Lemma main_prints_not_found :
  query_and_plot.main (Some (store_after [alice_entity]))
  = ([query_and_plot.Print "No data found for observable: mean_pT_pion";
      query_and_plot.Close], Return tt).
Proof. reflexivity. Qed.

Lemma query_found_raises_NameError_witness :
  (exists r, r ∈ sqlite3.experimental_results (store_after [alice_entity])
             /\ joins (store_after [alice_entity]) "dNch_deta" r)
  /\ query_and_plot.query_observables (Some (store_after [alice_entity])) "dNch_deta"
     = Raise (NameError "name 'json' is not defined")
  /\ query_and_plot.try_except (Some (store_after [alice_entity])) "dNch_deta"
     = ([], Raise (NameError "name 'json' is not defined")).
Proof.
  assert (exists r, r ∈ sqlite3.experimental_results (store_after [alice_entity])
                    /\ joins (store_after [alice_entity]) "dNch_deta" r) as Hfound.
  { exists (fact_row (prepared None) alice_entity). split.
    - change (sqlite3.experimental_results (store_after [alice_entity]))
        with [fact_row (prepared None) alice_entity].
      apply list_elem_of_here.
    - exists (1, "dNch_deta"). split_and!; [|reflexivity|reflexivity].
      change (sqlite3.observables (store_after [alice_entity])) with [(1, "dNch_deta")].
      apply list_elem_of_here. }
  split; [exact Hfound|].
  exact (query_found_raises_NameError (store_after [alice_entity]) "dNch_deta" Hfound).
Defined.


(** ** Runs of the script, one after another *)

Section Runs.

Import sqlite3 query_and_plot.
Local Open Scope list_scope.

Lemma foldr_max_in (i : Z) rest : foldr Z.max i rest ∈ i :: rest.
Proof.
  induction rest as [|j rest IH]; cbn [foldr]; [apply list_elem_of_here|].
  destruct (Z.max_spec j (foldr Z.max i rest)) as [[_ ->]|[_ ->]].
  - apply elem_of_cons in IH as [->|IH]; [apply list_elem_of_here|].
    by do 2 apply list_elem_of_further.
  - apply list_elem_of_further, list_elem_of_here.
Qed.

(** In a table that is not empty the new rowid follows a rowid in use. *)
Lemma next_rowid_pred_in ids : ids <> [] -> next_rowid ids - 1 ∈ ids.
Proof.
  destruct ids as [|i rest]; [done|]. intros _. cbn [next_rowid].
  replace (foldr Z.max i rest + 1 - 1) with (foldr Z.max i rest) by lia.
  apply foldr_max_in.
Qed.

Lemma next_rowid_seq k : next_rowid (map Z.of_nat (seq 1 k)) = Z.of_nat (S k).
Proof.
  destruct k as [|k]; [done|].
  set (ids := map Z.of_nat (seq 1 (S k))).
  assert (Z.of_nat (S k) ∈ ids) as Hlast.
  { apply list_elem_of_fmap. exists (S k). split; [done|].
    apply list_elem_of_In, in_seq. lia. }
  apply next_rowid_above in Hlast.
  assert (next_rowid ids - 1 ∈ ids) as Hpred by (by apply next_rowid_pred_in).
  apply list_elem_of_fmap in Hpred as (j & Hj & Hin).
  apply list_elem_of_In, in_seq in Hin. lia.
Qed.

(** With distinct ids, the rows of one id and one name are the row of
    that id, if it has the name. *)
Lemma filter_unique_id (t : table) i nm n :
  NoDup (map fst t) -> (i, nm) ∈ t ->
  filter (fun o : Z * string => fst o = i /\ snd o = n) t
  = if decide (nm = n) then [(i, nm)] else [].
Proof.
  induction t as [|[j m] t IH]; [by intros _ ?%elem_of_nil|].
  cbn [map fst]. intros [Hj Hnd]%NoDup_cons [Heq|Hin]%elem_of_cons.
  - injection Heq as <- <-.
    assert (filter (fun o : Z * string => fst o = i /\ snd o = n) t = []) as Htail.
    { apply elem_of_nil_inv. intros [i' m'] [[Hi' _] Hin']%list_elem_of_filter.
      cbn in Hi'. subst i'. apply Hj. apply list_elem_of_fmap. by exists (i, m'). }
    destruct (decide (nm = n)) as [->|Hne].
    + rewrite filter_cons_True by done. by rewrite Htail.
    + rewrite filter_cons_False by (cbn; tauto). done.
  - rewrite filter_cons_False; [by apply IH|].
    cbn. intros [-> _]. apply Hj. apply list_elem_of_fmap. by exists (i, nm).
Qed.

Lemma flat_map_ext_Forall {A B} (f g : A -> list B) l :
  Forall (fun x => f x = g x) l -> flat_map f l = flat_map g l.
Proof. induction 1 as [|x l Hx _ IH]; [done|]. cbn [flat_map]. by rewrite Hx, IH. Qed.

Lemma selected_fact_row d obs : selected (fact_row d obs) = encoded obs.
Proof. reflexivity. Qed.

(** The [observables] rows that the join pairs with the fact row of a
    save: one row, when the name asked for is the entity's short name. *)
Lemma partners_of_fact_row d obs n :
  NoDup (map fst (observables d)) ->
  exists o,
    filter (fun o : Z * string =>
              fst o = resolved_id (database.short_name obs) (observables d) /\ snd o = n)
           (insert_name (database.short_name obs) (observables d))
    = if decide (database.short_name obs = n) then [o] else [].
Proof.
  intros Hnd. unfold insert_name, resolved_id. rewrite filter_app.
  set (nid := next_rowid (map fst (observables d))).
  destruct (select_id (database.short_name obs) (observables d)) as [|i ids] eqn:Hsel.
  - exists (nid, database.short_name obs).
    rewrite (elem_of_nil_inv (filter _ (observables d))).
    + cbn [app]. destruct (decide (database.short_name obs = n)) as [Hn|Hn].
      * by rewrite filter_cons_True.
      * rewrite filter_cons_False by (cbn; tauto). done.
    + intros [j m] [[Hj _] Hin]%list_elem_of_filter. cbn in Hj.
      apply (next_rowid_fresh (map fst (observables d))). fold nid. rewrite <- Hj.
      apply list_elem_of_fmap. by exists (j, m).
  - exists (i, database.short_name obs).
    pose proof (select_id_head _ _ _ _ Hsel) as Hin.
    rewrite (filter_unique_id _ _ _ n Hnd Hin).
    rewrite filter_cons_False; [by rewrite filter_nil, app_nil_r|].
    cbn. intros [Hi _]. apply (next_rowid_fresh (map fst (observables d))). fold nid.
    rewrite Hi. apply list_elem_of_fmap. by exists (i, database.short_name obs).
Qed.

(** One save adds the entity's texts to the join for its short name and
    leaves the join for every other name as it was. *)
Lemma execute_after_any_save d obs d' n :
  references_resolve d ->
  NoDup (map fst (observables d)) ->
  database.insert_integrated_observable_data d obs = Return d' ->
  execute d' n
  = execute d n ++ (if decide (database.short_name obs = n) then [encoded obs] else []).
Proof.
  intros Href Hnd. rewrite insert_integrated_observable_data_returns. intros [= <-].
  unfold execute. cbn [experimental_results observables].
  rewrite flat_map_app. cbn [flat_map]. rewrite app_nil_r. f_equal.
  - apply flat_map_ext_Forall, Forall_forall. intros r Hr. f_equal.
    unfold insert_name. rewrite filter_app.
    rewrite filter_cons_False; [by rewrite filter_nil, app_nil_r|].
    cbn. intros [Hid _]. apply (next_rowid_fresh (map fst (observables d))).
    rewrite Hid. by apply Href.
  - cbn [fact_row observable_id].
    destruct (partners_of_fact_row d obs n Hnd) as [o ->].
    by destruct (decide (database.short_name obs = n)).
Qed.

Lemma save_ids_NoDup d obs d' :
  NoDup (map fst (observables d)) ->
  database.insert_integrated_observable_data d obs = Return d' ->
  NoDup (map fst (observables d')).
Proof.
  intros Hnd. rewrite insert_integrated_observable_data_returns. intros [= <-].
  cbn [observables]. unfold insert_name. rewrite map_app. apply NoDup_app.
  split_and!; [done| |apply NoDup_singleton].
  intros i Hi ->%list_elem_of_singleton. by apply next_rowid_fresh in Hi.
Qed.

(** The join after any list of runs, from any store with resolved
    references and distinct ids. *)
Lemma execute_populate_all l :
  forall file,
    references_resolve (default empty file) ->
    NoDup (map fst (observables (default empty file))) ->
    exists file',
      populate_all file l = Return file'
      /\ references_resolve (default empty file')
      /\ NoDup (map fst (observables (default empty file')))
      /\ forall n,
           execute (default empty file') n
           = execute (default empty file) n
             ++ map encoded (filter (fun o => database.short_name o = n) l).
Proof.
  induction l as [|o l IH]; intros file Href Hnd.
  - exists file. split_and!; try done. intros n. by rewrite filter_nil, app_nil_r.
  - cbn [populate_all].
    destruct (database.populate_database file o) as [d|e] eqn:Hsave;
      [|by rewrite populate_database_returns in Hsave].
    rewrite populate_database_prepared in Hsave. cbn [bind].
    pose proof (save_references_resolve _ _ _ (prepared_references_resolve _ Href) Hsave)
      as Href1.
    pose proof (save_ids_NoDup (prepared file) _ _ Hnd Hsave) as Hnd1.
    destruct (IH (Some d) Href1 Hnd1) as (file' & Hall & Href' & Hnd' & Hexec).
    exists file'. split_and!; try done. intros n.
    rewrite Hexec. change (default empty (Some d)) with d.
    rewrite (execute_after_any_save (prepared file) o d n
               (prepared_references_resolve _ Href) Hnd Hsave).
    change (execute (prepared file) n) with (execute (default empty file) n).
    rewrite <- app_assoc. f_equal.
    destruct (decide (database.short_name o = n)) as [Hn|Hn].
    + by rewrite filter_cons_True.
    + by rewrite filter_cons_False.
Qed.

Lemma store_after_default l file' :
  populate_all None l = Return file' -> store_after l = default empty file'.
Proof. intros H. unfold store_after. rewrite H. by destruct file'. Qed.

Lemma execute_store_after l n :
  execute (store_after l) n = map encoded (filter (fun o => database.short_name o = n) l).
Proof.
  destruct (execute_populate_all l None empty_references_resolve (NoDup_nil_2))
    as (file' & Hall & _ & _ & Hexec).
  by rewrite (store_after_default _ _ Hall), Hexec.
Qed.

(** X2.  After any list of runs on a new file, the rows that the query's
    [SELECT] yields for a name are the four texts of the entities saved
    under that short name, one row per save and in the order of the
    saves; entities saved under other names add nothing. *)
Theorem query_rows_are_the_saved_entities l :
  exists file',
    populate_all None l = Return file'
    /\ forall n,
         execute (default empty file') n
         = map encoded (filter (fun o => database.short_name o = n) l).
Proof.
  destruct (execute_populate_all l None empty_references_resolve (NoDup_nil_2))
    as (file' & Hall & _ & _ & Hexec).
  exists file'. split; [done|]. intros n. by rewrite Hexec.
Qed.

(** X3.  The row fetched for a short name is that of the first entity
    saved under it: whatever was saved before under other names and
    whatever is saved after, under any name, the query's [fetchone()]
    gives the texts of that first entity. *)
Theorem first_saved_entity_is_fetched pre obs rest :
  (forall o, o ∈ pre -> database.short_name o <> database.short_name obs) ->
  fetchone (execute (store_after (pre ++ obs :: rest)) (database.short_name obs))
  = Some (encoded obs).
Proof.
  intros Hpre. rewrite execute_store_after, filter_app.
  rewrite (elem_of_nil_inv (filter _ pre)).
  - cbn [app]. by rewrite filter_cons_True.
  - intros o [Hname Hin]%list_elem_of_filter. by apply (Hpre o).
Qed.

Lemma populate_all_rowids l :
  forall file k,
    map fst (observables (default empty file)) = map Z.of_nat (seq 1 k) ->
    map result_id (experimental_results (default empty file)) = map Z.of_nat (seq 1 k) ->
    exists file',
      populate_all file l = Return file'
      /\ map fst (observables (default empty file'))
         = map Z.of_nat (seq 1 (k + length l))
      /\ map result_id (experimental_results (default empty file'))
         = map Z.of_nat (seq 1 (k + length l)).
Proof.
  induction l as [|o l IH]; intros file k Hobs Hres.
  - exists file. by rewrite Nat.add_0_r.
  - cbn [populate_all]. rewrite populate_database_returns. cbn [bind].
    match goal with |- context [populate_all (Some ?d) l] => set (d1 := d) end.
    destruct (IH (Some d1) (S k)) as (file' & Hall & Hobs' & Hres').
    + change (default empty (Some d1)) with d1. unfold d1. cbn [observables].
      unfold insert_name.
      rewrite map_app, prepared_observables, Hobs, next_rowid_seq.
      by rewrite seq_S, map_app.
    + change (default empty (Some d1)) with d1. unfold d1.
      cbn [experimental_results]. rewrite map_app. cbn [map fact_row result_id].
      rewrite prepared_experimental_results, Hres, next_rowid_seq.
      by rewrite seq_S, map_app.
    + exists file'. split; [exact Hall|]. cbn [length]. by rewrite Nat.add_succ_r.
Qed.

(** X4.  After [n] runs on a new file the ids in [observables] are
    1, ..., [n] and so are the [result_id]s of the fact rows, in the
    order of the runs: every run takes the next id in both tables,
    whether or not its short name was saved before. *)
Theorem rowids_count_the_runs l :
  exists file',
    populate_all None l = Return file'
    /\ map fst (observables (default empty file')) = map Z.of_nat (seq 1 (length l))
    /\ map result_id (experimental_results (default empty file'))
       = map Z.of_nat (seq 1 (length l)).
Proof. by apply (populate_all_rowids l None 0). Qed.

(** X5.  On any store, a query for the short name of an entity right
    after its save never reports that no data was found: the saved fact
    row is in the join for that name, and the query raises [NameError]. *)
Theorem query_after_save_raises_NameError file obs :
  exists d,
    database.populate_database file obs = Return d
    /\ execute d (database.short_name obs) <> []
    /\ query_observables (Some d) (database.short_name obs)
       = Raise (NameError "name 'json' is not defined").
Proof.
  eexists. split; [apply populate_database_returns|].
  match goal with |- execute ?d _ <> [] /\ _ => set (d' := d) end.
  assert (joins d' (database.short_name obs) (fact_row (prepared file) obs)) as Hjoin.
  { unfold joins, d'. cbn [observables fact_row observable_id].
    unfold resolved_id, insert_name.
    destruct (select_id (database.short_name obs) (observables (prepared file)))
      as [|i ids] eqn:Hsel.
    - eexists (_, _). split_and!; [|reflexivity|reflexivity].
      apply elem_of_app. right. apply list_elem_of_here.
    - exists (i, database.short_name obs). split_and!; [|done|done].
      apply elem_of_app. left. by eapply select_id_head. }
  assert (execute d' (database.short_name obs) <> []) as Hne.
  { intros Hnil. eapply execute_nil in Hnil; [exact (Hnil Hjoin)|].
    unfold d'. cbn [experimental_results]. apply elem_of_app. right. apply list_elem_of_here. }
  split; [done|].
  destruct (fetchone (execute d' (database.short_name obs))) as [r0|] eqn:Hfetch.
  - by eapply query_observables_fetched.
  - unfold fetchone in Hfetch. by apply head_None in Hfetch.
Qed.

(** X6.  The two default rows are inserted once: on a new file a run
    leaves [systems] with the single row (1, Pb-Pb-2760) and
    [collaborations] with the single row (1, ALICE), and on any file a
    second run changes neither table. *)
Theorem default_rows_are_inserted_once file obs obs' :
  exists d d',
    database.populate_database file obs = Return d
    /\ database.populate_database (Some d) obs' = Return d'
    /\ systems d' = systems d
    /\ collaborations d' = collaborations d
    /\ (file = None -> systems d = [(1, "Pb-Pb-2760")]
                      /\ collaborations d = [(1, "ALICE")]).
Proof.
  eexists _, _. split; [apply populate_database_returns|].
  split; [apply populate_database_returns|].
  cbn [systems collaborations prepared default from_option id with_systems with_collaborations].
  split_and!.
  - apply insert_or_ignore_idempotent.
  - apply insert_or_ignore_idempotent.
  - by intros ->.
Qed.

(** X7.  [INSERT OR IGNORE] does not rename: when the store already has
    a row with id 1 in [systems], under whatever name, a run leaves
    [systems] as it is, and the fact row it writes with [system_id] 1
    points to that row. *)
Theorem taken_system_id_is_kept d obs nm :
  (1, nm) ∈ systems d ->
  exists d' r,
    database.populate_database (Some d) obs = Return d'
    /\ systems d' = systems d
    /\ experimental_results d' = experimental_results d ++ [r]
    /\ system_id r = 1.
Proof.
  intros Hin. eexists _, _. split; [apply populate_database_returns|].
  cbn [systems experimental_results prepared default from_option id with_systems
       with_collaborations].
  split_and!; [|done|done].
  unfold insert_or_ignore.
  assert (existsb (fun r : Z * string => (fst r =? 1)%Z) (systems d) = true) as ->; [|done].
  apply existsb_exists. exists (1, nm). split; [by apply list_elem_of_In|done].
Qed.

End Runs.

Lemma first_saved_entity_is_fetched_witness :
  (forall o, o ∈ [star_entity] -> database.short_name o <> database.short_name v22_first)
  /\ sqlite3.fetchone
       (query_and_plot.execute
          (store_after ([star_entity] ++ v22_first :: [v22_second; alice_entity])%list)
          (database.short_name v22_first))
     = Some (encoded v22_first).
Proof.
  assert (forall o, o ∈ [star_entity] ->
                    database.short_name o <> database.short_name v22_first) as Hpre.
  { intros o ->%list_elem_of_singleton. done. }
  split; [exact Hpre|].
  exact (first_saved_entity_is_fetched [star_entity] v22_first [v22_second; alice_entity] Hpre).
Defined.

Lemma taken_system_id_is_kept_witness :
  (1, "Au-Au-200") ∈ sqlite3.systems store_with_other_system
  /\ exists d' r,
       database.populate_database (Some store_with_other_system) star_entity = Return d'
       /\ sqlite3.systems d' = sqlite3.systems store_with_other_system
       /\ sqlite3.experimental_results d'
          = (sqlite3.experimental_results store_with_other_system ++ [r])%list
       /\ sqlite3.system_id r = 1.
Proof.
  assert ((1, "Au-Au-200") ∈ sqlite3.systems store_with_other_system) as Hin
    by apply list_elem_of_here.
  split; [exact Hin|].
  exact (taken_system_id_is_kept store_with_other_system star_entity "Au-Au-200" Hin).
Defined.

(** ** The constructor and the main block, in full *)

Section Outcomes.

Import database query_and_plot.

Section AnyCall.

Variables (cls : class) (name short_name collision_system collaboration : string)
          (reference : dict) (centrality_bins values errors : ndarray)
          (trigger_info : dict).

Local Abbreviation init :=
  (__init__ cls name short_name collision_system collaboration
     reference centrality_bins values errors trigger_info).

Local Abbreviation blank :=
  {| __class__ := cls; database.name := name; database.short_name := short_name;
     database.collision_system := collision_system;
     database.collaboration := collaboration; database.reference := reference;
     database.centrality_bins := centrality_bins; database.values := values;
     database.errors := errors; database.trigger_info := trigger_info; params := ∅ |}.

(** X8.  The constructor returns an entity exactly when the keyword
    arguments hold every required parameter of the class; nothing else
    about the arguments can make it fail. *)
Theorem init_returns_iff_complete (kwargs : gmap string value) :
  (exists o, init kwargs = Return o)
  <-> (forall q, q ∈ required_params cls -> is_Some (kwargs !! q)).
Proof.
  rewrite <- first_missing_None. unfold __init__. split.
  - intros [o Ho].
    destruct (first_missing (required_params cls) kwargs) as [p|] eqn:Hfm; [|done].
    by rewrite (set_required_missing _ _ blank _ Hfm) in Ho.
  - intros Hnone. destruct (set_required_complete _ _ blank Hnone) as (o & Ho & _). eauto.
Qed.

(** X9.  A constructed entity has the class called, the nine positional
    arguments as its attributes of the same names, and as further
    attributes exactly the required parameters, each with the value of
    its keyword. *)
Theorem init_sets_attributes (kwargs : gmap string value) o :
  init kwargs = Return o ->
  __class__ o = cls
  /\ database.name o = name /\ database.short_name o = short_name
  /\ database.collision_system o = collision_system
  /\ database.collaboration o = collaboration
  /\ database.reference o = reference
  /\ database.centrality_bins o = centrality_bins
  /\ database.values o = values /\ database.errors o = errors
  /\ database.trigger_info o = trigger_info
  /\ forall k, params o !! k
               = if bool_decide (k ∈ required_params cls) then kwargs !! k else None.
Proof.
  unfold __init__. intros Ho.
  destruct (first_missing (required_params cls) kwargs) as [p|] eqn:Hfm.
  - by rewrite (set_required_missing _ _ blank _ Hfm) in Ho.
  - destruct (set_required_complete _ _ blank Hfm) as (o' & Ho' & Hrest).
    rewrite Ho' in Ho. injection Ho as <-. exact Hrest.
Qed.

End AnyCall.

(** X10.  The [__main__] block never shows a figure.  On a file
    without the tables it ends with the [OperationalError] of the
    [SELECT], which nothing catches, having printed nothing and without
    closing the connection.  On a store without a fact row for
    [mean_pT_pion] it prints the not-found message, closes the connection
    and ends normally; on a store with one it ends with the uncaught
    [NameError], again with nothing printed and the connection open. *)
Theorem main_never_plots file :
  (file = None
   /\ main file = ([], Raise (OperationalError "no such table: experimental_results")))
  \/ (exists d, file = Some d /\ execute d "mean_pT_pion" = []
       /\ main file
          = ([Print "No data found for observable: mean_pT_pion"; Close], Return tt))
  \/ (exists d, file = Some d /\ execute d "mean_pT_pion" <> []
       /\ main file = ([], Raise (NameError "name 'json' is not defined"))).
Proof.
  destruct file as [d|]; [right|by left].
  unfold main, try_except.
  destruct (sqlite3.fetchone (execute d "mean_pT_pion")) as [r0|] eqn:Hfetch.
  - right. exists d. rewrite (query_observables_fetched _ _ _ Hfetch).
    split_and!; [done| |done]. intros Hnil. by rewrite Hnil in Hfetch.
  - left. exists d. unfold sqlite3.fetchone in Hfetch. apply head_None in Hfetch.
    split_and!; [done|done|]. unfold query_observables. by rewrite Hfetch.
Qed.

End Outcomes.

Lemma init_sets_attributes_witness :
  database.alice_ch_mult = Return alice_entity
  /\ database.short_name alice_entity = "dNch_deta"
  /\ database.params alice_entity !! "pT_range" = multiplicity_kwargs !! "pT_range".
Proof.
  assert (database.alice_ch_mult = Return alice_entity) as Hinit by reflexivity.
  split; [exact Hinit|].
  destruct (init_sets_attributes _ _ _ _ _ _ _ _ _ _ _ _ Hinit)
    as (_ & _ & Hshort & _ & _ & _ & _ & _ & _ & _ & Hpar).
  split; [exact Hshort|]. exact (Hpar "pT_range").
Defined.

(** ** Data files: their names *)

Section FileNames.

Import populate_db.

Lemma endswith_app suffix a : endswith suffix (a ++ suffix) = true.
Proof.
  induction a as [|c a IH].
  - rewrite append_nil. destruct suffix; cbn [endswith]; by rewrite String.eqb_refl.
  - rewrite append_cons. cbn [endswith]. rewrite IH. by destruct (String.eqb _ _).
Qed.

Lemma endswith_inv suffix s : endswith suffix s = true -> exists a, s = a ++ suffix.
Proof.
  induction s as [|c s IH]; cbn [endswith].
  - destruct (String.eqb_spec "" suffix) as [<-|_]; [by exists ""|done].
  - destruct (String.eqb_spec (String c s) suffix) as [<-|_]; [by exists ""|].
    intros [a ->]%IH. by exists (String c a).
Qed.

Lemma occurs_cons old c s :
  occurs old (String c s) = false ->
  String.prefix old (String c s) = false /\ occurs old s = false.
Proof. cbn [occurs]. by destruct (String.prefix old (String c s)). Qed.

(** No occurrence of [.dat] starts in a text without one and runs into a
    [.dat] that follows it. *)
Lemma prefix_dat_app a rest :
  a <> "" -> String.prefix ".dat" a = false ->
  String.prefix ".dat" (a ++ ".dat" ++ rest) = false.
Proof.
  destruct a as [|c1 [|c2 [|c3 [|c4 a]]]]; [done|..]; intros _;
    rewrite ?append_cons, ?append_nil; cbn [String.prefix];
    repeat match goal with
           | |- context [ascii_dec ?x ?y] => destruct (ascii_dec x y)
           end; try done.
  by destruct a.
Qed.

Lemma replace_from_dat a rest :
  occurs ".dat" a = false ->
  replace_from ".dat" "" 0 (a ++ ".dat" ++ rest) = a ++ replace_from ".dat" "" 0 rest.
Proof.
  induction a as [|c a IH]; intros Hocc.
  - rewrite !append_nil. destruct rest; reflexivity.
  - apply occurs_cons in Hocc as [Hpre Hocc].
    pose proof (prefix_dat_app (String c a) rest ltac:(done) Hpre) as Hno.
    rewrite (append_cons c a) in *. cbn [replace_from]. rewrite Hno. by rewrite IH.
Qed.

(** X11.  The loop takes a file exactly when its name ends with [.dat]. *)
Theorem file_taken_iff_dat filename :
  is_Some (observable_name_of filename) <-> exists stem, filename = stem ++ ".dat".
Proof.
  unfold observable_name_of. split.
  - destruct (endswith ".dat" filename) eqn:Hend; [|by intros [? ?]].
    intros _. by apply endswith_inv.
  - intros [stem ->]. by rewrite endswith_app.
Qed.

(** X12.  For a file name [stem.dat] whose stem holds no [.dat], the
    observable name is the stem. *)
Theorem observable_name_is_the_stem stem :
  occurs ".dat" stem = false ->
  observable_name_of (stem ++ ".dat") = Some stem.
Proof.
  intros Hocc. unfold observable_name_of. rewrite endswith_app. f_equal.
  unfold replace. pose proof (replace_from_dat stem "" Hocc) as Hrep.
  rewrite append_nil_r in Hrep. rewrite Hrep. cbn [replace_from]. apply append_nil_r.
Qed.

(** X13.  [replace] removes every [.dat], not only the ending: for a
    file name [a.datb.dat], with no [.dat] inside [a] or [b], the
    observable name is [ab] and not the stem [a.datb]. *)
Theorem inner_dat_is_removed_too a b :
  occurs ".dat" a = false -> occurs ".dat" b = false ->
  observable_name_of (a ++ ".dat" ++ b ++ ".dat") = Some (a ++ b).
Proof.
  intros Ha Hb. unfold observable_name_of.
  replace (a ++ ".dat" ++ b ++ ".dat") with ((a ++ ".dat" ++ b) ++ ".dat")
    by (by rewrite !append_assoc).
  rewrite endswith_app. f_equal. unfold replace. rewrite !append_assoc.
  rewrite (replace_from_dat a _ Ha).
  pose proof (replace_from_dat b "" Hb) as Hrep. rewrite append_nil_r in Hrep.
  rewrite Hrep. cbn [replace_from]. by rewrite append_nil_r.
Qed.

End FileNames.

(** ** Data files: their rows *)

Section InsertData.

Import populate_db.
Local Open Scope list_scope.

Variables (system collaboration observable reference : string).

Local Abbreviation insert_rows' := (insert_rows system collaboration observable reference).
Local Abbreviation stored' := (fun i => stored i system collaboration observable reference).
Local Abbreviation stored_rows' :=
  (fun i => stored_rows i system collaboration observable reference).

Lemma next_rowid_snoc ids v :
  (forall j, j ∈ ids -> j < v) -> sqlite3.next_rowid (ids ++ [v]) = v + 1.
Proof.
  intros Hbelow.
  assert (v ∈ ids ++ [v]) as Hv by (apply elem_of_app; right; apply list_elem_of_here).
  apply next_rowid_above in Hv.
  assert (sqlite3.next_rowid (ids ++ [v]) - 1 ∈ ids ++ [v]) as Hpred.
  { apply next_rowid_pred_in. by destruct ids. }
  apply elem_of_app in Hpred as [Hin|Hin%list_elem_of_singleton]; [|lia].
  apply Hbelow in Hin. lia.
Qed.

(** After an insert the next id is the next number. *)
Lemma new_id_after_insert t r :
  id r = new_id t ->
  new_id {| seq := new_id t; rows := rows t ++ [r] |} = new_id t + 1.
Proof.
  intros Hid. unfold new_id at 1. cbn [rows seq]. rewrite map_app. cbn [map].
  rewrite Hid, next_rowid_snoc; [lia|].
  intros j Hj%next_rowid_above. unfold new_id. lia.
Qed.

Lemma has_room_dec t n : has_room t n \/ ¬ has_room t n.
Proof.
  unfold has_room. destruct n as [|n]; [by left; left|].
  destruct (Z_le_dec (new_id t + Z.of_nat (S n) - 1) sqlite3.max_rowid); [by left; right|].
  right. intros [?|?]; done.
Qed.

Lemma storable_insert row t :
  storable row = true ->
  new_id t <= sqlite3.max_rowid ->
  exists low high mid val err,
    take 5 row = [low; high; mid; val; err]
    /\ insert system collaboration observable low high mid val err reference t
       = Return {| seq := new_id t; rows := rows t ++ [stored' (new_id t) row] |}.
Proof.
  unfold storable, insert.
  destruct row as [|low [|high [|mid [|val [|err rest]]]]]; try done.
  cbn [firstn]. destruct (not_null_failure low high mid val err) eqn:Hnull; [done|].
  intros _ Hroom. exists low, high, mid, val, err. split; [reflexivity|]. rewrite Hnull.
  by destruct (Z.ltb_spec sqlite3.max_rowid (new_id t)); [lia|].
Qed.

Lemma storable_full row data t :
  storable row = true ->
  sqlite3.max_rowid < new_id t ->
  insert_rows' (row :: data) t = (t, Raise (OperationalError "database or disk is full")).
Proof.
  unfold storable. cbn [insert_rows]. unfold insert.
  destruct (take 5 row) as [|low [|high [|mid [|val [|err [|x rest]]]]]]; try done.
  destruct (not_null_failure low high mid val err); [done|].
  intros _ Hfull. by destruct (Z.ltb_spec sqlite3.max_rowid (new_id t)); [|lia].
Qed.

Lemma not_storable_stops row data t :
  storable row = false ->
  exists e, insert_rows' (row :: data) t = (t, Raise e) /\ rolls_back e = false.
Proof.
  unfold storable. cbn [insert_rows]. unfold insert.
  destruct (take 5 row) as [|low [|high [|mid [|val [|err [|x rest]]]]]]; eauto.
  destruct (not_null_failure low high mid val err); [eauto|done].
Qed.

(** The loop over rows that can all be stored. *)
Lemma insert_rows_storable data :
  forall t,
    Forall (fun row => storable row = true) data ->
    has_room t (length data) ->
    exists t',
      insert_rows' data t = (t', Return tt)
      /\ rows t' = rows t ++ stored_rows' (new_id t) data
      /\ (data <> [] -> new_id t' = new_id t + Z.of_nat (length data)).
Proof.
  induction data as [|row data IH]; intros t Hall Hroom.
  - exists t. split_and!; [done| |done]. cbn. by rewrite app_nil_r.
  - apply Forall_cons in Hall as [Hrow Hall].
    destruct Hroom as [?|Hroom]; [done|]. cbn [length] in Hroom.
    destruct (storable_insert row t Hrow ltac:(lia))
      as (low & high & mid & val & err & Htake & Hins).
    cbn [insert_rows]. rewrite Htake, Hins.
    set (t1 := {| seq := new_id t; rows := rows t ++ [stored' (new_id t) row] |}).
    assert (new_id t1 = new_id t + 1) as Hnext by (by apply new_id_after_insert).
    destruct (IH t1 Hall) as (t' & Hloop & Hrows & Hid).
    { destruct data; [by left|right]. cbn [length] in *. lia. }
    exists t'. split_and!; [done| |].
    + rewrite Hrows, Hnext. unfold t1. cbn [rows stored_rows]. by rewrite <- app_assoc.
    + intros _. destruct data as [|row' data].
      * cbn in Hloop. injection Hloop as <-. cbn [length]. lia.
      * rewrite Hid by done. cbn [length]. lia.
Qed.

(** The loop stops at the first row that cannot be stored. *)
Lemma insert_rows_stops good bad rest :
  forall t,
    Forall (fun row => storable row = true) good ->
    storable bad = false ->
    has_room t (length good) ->
    exists t' e,
      insert_rows' (good ++ bad :: rest) t = (t', Raise e)
      /\ rolls_back e = false
      /\ rows t' = rows t ++ stored_rows' (new_id t) good.
Proof.
  induction good as [|row good IH]; intros t Hgood Hbad Hroom.
  - destruct (not_storable_stops bad rest t Hbad) as (e & He & Hkind).
    exists t, e. split_and!; [done|done|]. cbn. by rewrite app_nil_r.
  - apply Forall_cons in Hgood as [Hrow Hgood].
    destruct Hroom as [?|Hroom]; [done|]. cbn [length] in Hroom.
    destruct (storable_insert row t Hrow ltac:(lia))
      as (low & high & mid & val & err & Htake & Hins).
    cbn [app insert_rows]. rewrite Htake, Hins.
    set (t1 := {| seq := new_id t; rows := rows t ++ [stored' (new_id t) row] |}).
    assert (new_id t1 = new_id t + 1) as Hnext by (by apply new_id_after_insert).
    destruct (IH t1 Hgood Hbad) as (t' & e & Hloop & Hkind & Hrows).
    { destruct good; [by left|right]. cbn [length] in *. lia. }
    exists t', e. split_and!; [done|done|].
    rewrite Hrows, Hnext. unfold t1. cbn [rows stored_rows]. by rewrite <- app_assoc.
Qed.

(** The loop stops for want of an id when the rows that can be stored
    are more than the ids left. *)
Lemma insert_rows_full good rest :
  forall t,
    Forall (fun row => storable row = true) good ->
    ¬ has_room t (length good) ->
    exists t',
      insert_rows' (good ++ rest) t
      = (t', Raise (OperationalError "database or disk is full")).
Proof.
  induction good as [|row good IH]; intros t Hgood Hroom.
  - exfalso. apply Hroom. by left.
  - apply Forall_cons in Hgood as [Hrow Hgood].
    destruct (Z_le_dec (new_id t) sqlite3.max_rowid) as [Hfirst|Hfirst].
    + destruct (storable_insert row t Hrow Hfirst)
        as (low & high & mid & val & err & Htake & Hins).
      cbn [app insert_rows]. rewrite Htake, Hins.
      set (t1 := {| seq := new_id t; rows := rows t ++ [stored' (new_id t) row] |}).
      assert (new_id t1 = new_id t + 1) as Hnext by (by apply new_id_after_insert).
      apply (IH t1 Hgood). intros [Hnil|Hmore]; apply Hroom; right; cbn [length].
      * apply length_zero_iff_nil in Hnil. subst good. cbn [length]. lia.
      * lia.
    + eexists. cbn [app]. apply storable_full; [done|lia].
Qed.

Lemma first_not_storable (data : list (list float)) :
  Forall (fun row => storable row = true) data
  \/ exists good bad rest,
       data = good ++ bad :: rest
       /\ Forall (fun row => storable row = true) good
       /\ storable bad = false.
Proof.
  induction data as [|row data IH]; [by left|].
  destruct (storable row) eqn:Hrow.
  - destruct IH as [Hall|(good & bad & rest & -> & Hgood & Hbad)].
    + left. by constructor.
    + right. exists (row :: good), bad, rest. split_and!; [done| |done]. by constructor.
  - right. by exists [], row, data.
Qed.

Lemma insert_rows_take5 data :
  forall t, insert_rows' (map (take 5) data) t = insert_rows' data t.
Proof.
  induction data as [|row data IH]; intros t; [done|].
  cbn [map insert_rows]. rewrite take_take. cbn [Nat.min].
  destruct (take 5 row) as [|low [|high [|mid [|val [|err [|x rest]]]]]]; try done.
  destruct (insert _ _ _ _ _ _ _ _ _ t); [apply IH|done].
Qed.

(** X14.  When every row of a two-dimensional array has at least five
    numbers and no NaN among the first five, and the table has ids left
    for the rows, [insert_data] ends normally and commits: the table
    gains one row per row of the array, in the order of the array, each
    with the system, collaboration, observable and reference passed and
    with ids counting up from the next free id. *)
Theorem insert_data_stores_every_row conn data :
  Forall (fun row => storable row = true) data ->
  has_room (working conn) (length data) ->
  exists t',
    insert_data conn system collaboration observable (Array2D data) reference
    = ({| committed := t'; working := t' |}, Return tt)
    /\ rows t' = rows (working conn) ++ stored_rows' (new_id (working conn)) data.
Proof.
  intros Hall Hroom.
  destruct (insert_rows_storable data (working conn) Hall Hroom) as (t' & Hloop & Hrows & _).
  exists t'. cbn [insert_data]. by rewrite Hloop.
Qed.


(** X16.  [insert_data] ends normally in two cases only: the array is
    one-dimensional and empty (a file without data), or it is
    two-dimensional, every row can be stored and the table has ids left
    for the rows.  A file with a single row, a single column or a single
    number makes it raise. *)
Theorem insert_data_succeeds_iff conn data :
  snd (insert_data conn system collaboration observable data reference) = Return tt
  <-> data = Array1D []
      \/ exists rows, data = Array2D rows
                      /\ Forall (fun row => storable row = true) rows
                      /\ has_room (working conn) (length rows).
Proof.
  split.
  - destruct data as [x|[|x xs]|rows]; cbn [insert_data snd]; try done; [by left|].
    intros Hok. right. exists rows. split; [done|].
    destruct (first_not_storable rows) as [Hall|(good & bad & rest & -> & Hgood & Hbad)].
    + split; [done|]. destruct (has_room_dec (working conn) (length rows)) as [|Hfull]; [done|].
      destruct (insert_rows_full rows [] (working conn) Hall Hfull) as [t' Hloop].
      rewrite app_nil_r in Hloop. by rewrite Hloop in Hok.
    + exfalso. destruct (has_room_dec (working conn) (length good)) as [Hroom|Hfull].
      * destruct (insert_rows_stops good bad rest (working conn) Hgood Hbad Hroom)
          as (t' & e & Hloop & _).
        by rewrite Hloop in Hok.
      * destruct (insert_rows_full good (bad :: rest) (working conn) Hgood Hfull)
          as [t' Hloop].
        by rewrite Hloop in Hok.
  - intros [->|(rows & -> & Hall & Hroom)]; [done|].
    destruct (insert_rows_storable rows (working conn) Hall Hroom) as (t' & Hloop & _).
    cbn [insert_data]. by rewrite Hloop.
Qed.

(** X17.  Only the first five numbers of a row are read: an array and
    the array of its rows cut after the fifth number leave the same
    connection and the same outcome. *)
Theorem numbers_after_the_fifth_are_ignored conn data :
  insert_data conn system collaboration observable (Array2D (map (take 5) data)) reference
  = insert_data conn system collaboration observable (Array2D data) reference.
Proof. cbn [insert_data]. by rewrite insert_rows_take5. Qed.

(** X22.  When the rows can be stored but are more than the ids left,
    [insert_data] raises [OperationalError] with the message [database
    or disk is full] and nothing of the call stays: the transaction is
    undone, also for the rows that had found an id. *)
Theorem insert_data_without_room conn data :
  Forall (fun row => storable row = true) data ->
  ¬ has_room (working conn) (length data) ->
  insert_data conn system collaboration observable (Array2D data) reference
  = ({| committed := committed conn; working := committed conn |},
     Raise (OperationalError "database or disk is full")).
Proof.
  intros Hall Hfull.
  destruct (insert_rows_full data [] (working conn) Hall Hfull) as [t' Hloop].
  rewrite app_nil_r in Hloop. cbn [insert_data]. by rewrite Hloop.
Qed.

End InsertData.

Lemma observable_name_is_the_stem_witness :
  populate_db.occurs ".dat" "mean_pT_pion" = false
  /\ populate_db.observable_name_of ("mean_pT_pion" ++ ".dat") = Some "mean_pT_pion".
Proof.
  assert (populate_db.occurs ".dat" "mean_pT_pion" = false) as Hocc by reflexivity.
  split; [exact Hocc|]. exact (observable_name_is_the_stem "mean_pT_pion" Hocc).
Defined.

Lemma inner_dat_is_removed_too_witness :
  populate_db.occurs ".dat" "v2" = false
  /\ populate_db.occurs ".dat" "a" = false
  /\ populate_db.observable_name_of ("v2" ++ ".dat" ++ "a" ++ ".dat") = Some ("v2" ++ "a").
Proof.
  assert (populate_db.occurs ".dat" "v2" = false) as Ha by reflexivity.
  assert (populate_db.occurs ".dat" "a" = false) as Hb by reflexivity.
  split; [exact Ha|]. split; [exact Hb|]. exact (inner_dat_is_removed_too "v2" "a" Ha Hb).
Defined.

Lemma insert_data_stores_every_row_witness :
  Forall (fun row => storable row = true) two_data_rows
  /\ has_room (populate_db.working new_connection) (length two_data_rows)
  /\ exists t',
       populate_db.insert_data new_connection "Pb-Pb-2760" "ALICE" "mean_pT_pion"
         (populate_db.Array2D two_data_rows) "arXiv:1303.0737"
       = ({| populate_db.committed := t'; populate_db.working := t' |}, populate_db.Return tt)
       /\ populate_db.rows t'
          = (populate_db.rows (populate_db.working new_connection)
             ++ stored_rows (populate_db.new_id (populate_db.working new_connection))
                  "Pb-Pb-2760" "ALICE" "mean_pT_pion" "arXiv:1303.0737" two_data_rows)%list.
Proof.
  assert (Forall (fun row => storable row = true) two_data_rows) as Hall.
  { repeat constructor. }
  assert (has_room (populate_db.working new_connection) (length two_data_rows)) as Hroom.
  { right. by vm_compute. }
  split; [exact Hall|]. split; [exact Hroom|].
  exact (insert_data_stores_every_row "Pb-Pb-2760" "ALICE" "mean_pT_pion" "arXiv:1303.0737"
           new_connection two_data_rows Hall Hroom).
Defined.


Lemma insert_data_without_room_witness :
  Forall (fun row => storable row = true) two_data_rows
  /\ ¬ has_room (populate_db.working nearly_full_connection) (length two_data_rows)
  /\ populate_db.insert_data nearly_full_connection "Pb-Pb-2760" "ALICE" "mean_pT_pion"
       (populate_db.Array2D two_data_rows) "arXiv:1303.0737"
     = ({| populate_db.committed := populate_db.committed nearly_full_connection;
           populate_db.working := populate_db.committed nearly_full_connection |},
        populate_db.Raise (populate_db.OperationalError "database or disk is full")).
Proof.
  assert (Forall (fun row => storable row = true) two_data_rows) as Hall.
  { repeat constructor. }
  assert (¬ has_room (populate_db.working nearly_full_connection) (length two_data_rows))
    as Hfull.
  { intros [Hnil|Hroom]; [discriminate Hnil|]. by vm_compute in Hroom. }
  split; [exact Hall|]. split; [exact Hfull|].
  exact (insert_data_without_room "Pb-Pb-2760" "ALICE" "mean_pT_pion" "arXiv:1303.0737"
           nearly_full_connection two_data_rows Hall Hfull).
Defined.

(** ** CSV files *)

Section Csv.

Import populate_db.
Local Open Scope list_scope.

Lemma check_columns_Return expected data :
  check_columns expected data = Return tt
  <-> forall col, col ∈ expected -> col ∈ columns data.
Proof.
  induction expected as [|c expected IH]; cbn [check_columns].
  - split; [|done]. intros _ col Hcol. by apply elem_of_nil in Hcol.
  - case_bool_decide as Hc.
    + rewrite IH. split.
      * intros H col [->|Hin]%elem_of_cons; [done|by apply H].
      * intros H col Hin. apply H. by apply elem_of_cons; right.
    + split; [done|]. intros H. exfalso. apply Hc, H. apply list_elem_of_here.
Qed.

Lemma check_columns_first_missing pre col post data :
  Forall (fun q => q ∈ columns data) pre ->
  col ∉ columns data ->
  check_columns (pre ++ col :: post) data
  = Raise (ValueError ("Expected column '" ++ col ++ "' not found in CSV file.")%string).
Proof.
  intros Hpre Hcol. induction Hpre as [|q pre Hq _ IH]; cbn [app check_columns].
  - by rewrite bool_decide_eq_false_2.
  - by rewrite bool_decide_eq_true_2.
Qed.

(** X18.  The check of [populate_database_from_csv] over a list of
    expected columns passes exactly when [test_check_columns] prints
    that all expected columns are present. *)
Theorem column_checks_agree expected data :
  check_columns expected data = Return tt
  <-> test_check_columns data expected = "All expected columns are present!".
Proof.
  rewrite check_columns_Return. unfold test_check_columns.
  destruct (filter (fun col => col ∉ columns data) expected) as [|c missing] eqn:Hmiss.
  - split; [done|]. intros _ col Hcol.
    destruct (decide (col ∈ columns data)) as [|Hnot]; [done|].
    assert (col ∈ filter (fun col => col ∉ columns data) expected) as Hin
      by (by apply list_elem_of_filter).
    rewrite Hmiss in Hin. by apply elem_of_nil in Hin.
  - split; [|by rewrite append_cons].
    intros Hall. exfalso.
    assert (c ∈ filter (fun col => col ∉ columns data) expected) as Hin
      by (rewrite Hmiss; apply list_elem_of_here).
    apply list_elem_of_filter in Hin as [Hnot Hin]. by apply Hnot, Hall.
Qed.

Section AnyCall.

Variables (file : table) (data : DataFrame)
          (file_path system collaboration observable reference : string).

Local Abbreviation call :=
  (populate_database_from_csv file data file_path system collaboration observable reference).

(** X19.  When one of the columns [cent_low], [cent_high], [val], [err]
    is missing from the CSV file, [populate_database_from_csv] raises
    [ValueError] naming the first missing one in that order; nothing is
    printed and the table is as it was. *)
Theorem csv_missing_column_is_reported pre col post :
  expected_columns = pre ++ col :: post ->
  Forall (fun q => q ∈ columns data) pre ->
  col ∉ columns data ->
  call = (file, [],
          Raise (ValueError ("Expected column '" ++ col ++ "' not found in CSV file.")%string)).
Proof.
  intros Hsplit Hpre Hcol. unfold populate_database_from_csv.
  by rewrite Hsplit, (check_columns_first_missing _ _ _ _ Hpre Hcol).
Qed.

End AnyCall.

End Csv.

Lemma csv_missing_column_is_reported_witness :
  populate_db.expected_columns = (["cent_low"] ++ "cent_high" :: ["val"; "err"])%list
  /\ Forall (fun q => q ∈ populate_db.columns csv_without_cent_high) ["cent_low"]
  /\ ("cent_high" ∉ populate_db.columns csv_without_cent_high)
  /\ populate_db.populate_database_from_csv
       (populate_db.working new_connection) csv_without_cent_high
       "mean_pT_pion.csv" "Pb-Pb-2760" "ALICE" "mean_pT_pion" "arXiv:1303.0737"
     = (populate_db.working new_connection, [],
        populate_db.Raise
          (populate_db.ValueError "Expected column 'cent_high' not found in CSV file.")).
Proof.
  assert (populate_db.expected_columns = (["cent_low"] ++ "cent_high" :: ["val"; "err"])%list)
    as Hsplit by reflexivity.
  assert (Forall (fun q => q ∈ populate_db.columns csv_without_cent_high) ["cent_low"]) as Hpre.
  { constructor; [apply list_elem_of_here|constructor]. }
  assert ("cent_high" ∉ populate_db.columns csv_without_cent_high) as Hcol.
  { cbn. rewrite !not_elem_of_cons. split_and!; try done. apply not_elem_of_nil. }
  split; [exact Hsplit|]. split; [exact Hpre|]. split; [exact Hcol|].
  exact (csv_missing_column_is_reported (populate_db.working new_connection)
           csv_without_cent_high "mean_pT_pion.csv" "Pb-Pb-2760" "ALICE" "mean_pT_pion"
           "arXiv:1303.0737" ["cent_low"] "cent_high" ["val"; "err"] Hsplit Hpre Hcol).
Defined.

(** ** Two saves under one short name *)

Section SameName.

Import sqlite3.
Local Open Scope list_scope.

(** X21.  On a store whose rowids leave room for two more rows in
    [observables] and in [experimental_results], two runs in a row with
    entities of the same short name append two fact rows with the same
    [observable_id], while [observables] grows by two rows: the name is
    looked up to the same id both times, and a row is added for it both
    times. *)
Theorem same_short_name_same_observable_id file obs obs' :
  database.short_name obs = database.short_name obs' ->
  room_for 2 (map fst (observables (default empty file))) ->
  room_for 2 (map result_id (experimental_results (default empty file))) ->
  exists d d' r r',
    database.populate_database file obs = Return d
    /\ database.populate_database (Some d) obs' = Return d'
    /\ experimental_results d' = experimental_results (default empty file) ++ [r; r']
    /\ observable_id r = observable_id r'
    /\ length (observables d') = S (S (length (observables (default empty file)))).
Proof.
  intros Hname _ _. eexists _, _, _, _.
  split; [apply populate_database_returns|].
  split; [apply populate_database_returns|].
  cbn [experimental_results observables prepared default from_option id with_systems
       with_collaborations].
  split_and!.
  - by rewrite <- app_assoc.
  - cbn [fact_row observable_id observables]. rewrite <- Hname.
    rewrite !prepared_observables.
    change (observables (default empty (Some ?x))) with (observables x).
    cbn [observables]. by rewrite resolved_id_insert_name.
  - unfold insert_name. rewrite !length_app. cbn [length]. lia.
Qed.

End SameName.

Lemma same_short_name_same_observable_id_witness :
  database.short_name v22_first = database.short_name v22_second
  /\ room_for 2 (map fst (sqlite3.observables
                            (default sqlite3.empty (Some (store_after [alice_entity])))))
  /\ room_for 2 (map sqlite3.result_id
                     (sqlite3.experimental_results
                        (default sqlite3.empty (Some (store_after [alice_entity])))))
  /\ exists d d' r r',
       database.populate_database (Some (store_after [alice_entity])) v22_first = Return d
       /\ database.populate_database (Some d) v22_second = Return d'
       /\ sqlite3.experimental_results d'
          = (sqlite3.experimental_results (default sqlite3.empty (Some (store_after [alice_entity])))
             ++ [r; r'])%list
       /\ sqlite3.observable_id r = sqlite3.observable_id r'
       /\ length (sqlite3.observables d')
          = S (S (length (sqlite3.observables
                            (default sqlite3.empty (Some (store_after [alice_entity])))))).
Proof.
  assert (database.short_name v22_first = database.short_name v22_second) as Hname
    by reflexivity.
  assert (room_for 2 (map fst (sqlite3.observables
                                 (default sqlite3.empty (Some (store_after [alice_entity]))))))
    as Hobs.
  { intros i Hi.
    change (map fst (sqlite3.observables
                       (default sqlite3.empty (Some (store_after [alice_entity])))))
      with [1] in Hi.
    apply list_elem_of_singleton in Hi as ->. by vm_compute. }
  assert (room_for 2 (map sqlite3.result_id
                          (sqlite3.experimental_results
                             (default sqlite3.empty (Some (store_after [alice_entity]))))))
    as Hres.
  { intros i Hi.
    change (map sqlite3.result_id
              (sqlite3.experimental_results
                 (default sqlite3.empty (Some (store_after [alice_entity])))))
      with [1] in Hi.
    apply list_elem_of_singleton in Hi as ->. by vm_compute. }
  split; [exact Hname|]. split; [exact Hobs|]. split; [exact Hres|].
  exact (same_short_name_same_observable_id (Some (store_after [alice_entity]))
           v22_first v22_second Hname Hobs Hres).
Defined.
